(** * Experiment runner and watchdog: a shallow embedding

    The repository holds two Python programs that cooperate through the
    files of one experiment directory:

    - [runner.py]: class [ExperimentRunner] and [main], the loop that
      alternates a training script and the assistant command line tool;
    - [watchdog.py]: [check_experiment] and its [__main__] block.

    Both are embedded as state-passing programs over a [world] (the files
    of the experiment directory, the console, the rolling log, the
    processes spawned so far and the clock), in a small state-and-exception
    monad.  Everything outside the two programs (the clock, the assistant
    process, the training script, the import of torch) is an [env] of
    oracles that see the whole world, so a theorem quantified over [env]
    holds whatever those collaborators do.

    Conventions of the embedding:
    - floats are rationals ([Q]); [time.time()] is the next reading of the
      clock oracle;
    - a JSON object is the record [jdict] of the keys the programs look
      at, each optional and of the type the programs write; text that
      [json.load] rejects is [Text].  JSON of any other shape (a list, a
      number, [null], an object that holds one of these keys at another
      type) is not among the file contents of the embedding: the
      programs meet it with [TypeError] or [AttributeError] where they
      first use it, and every statement below is about the contents
      listed here;
    - formatted messages are constructors carrying the interpolated
      values, one constructor per format string of the source;
    - the experiment directory exists and file operations on it succeed;
      directories are not part of the world, and a statement that needs
      the experiment directory to be there before any file was written
      asks for a file in it; the user interrupt ([KeyboardInterrupt]) is
      not modelled. *)

From Stdlib Require Import ZArith QArith String Ascii DecimalString List Sorted Bool Lia Lqa.
From stdpp Require Import base option list gmap strings.
Import ListNotations.

Local Open Scope string_scope.
Local Open Scope Z_scope.

(** ** Data *)

(** The keys read or written by either program in a JSON object:
    [status.json] carries the first four, the assistant's response the
    last five ([session_id] is shared).  [None] is an absent key;
    [k_session_id = Some None] is a JSON [null]. *)
Record jdict := JDict {
  k_iteration : option Z;
  k_timestamp : option Q;
  k_complete : option bool;
  k_session_id : option (option string);
  k_result : option string;
  k_cost_usd : option Q;
  k_total_cost : option Q;
  k_num_turns : option Z
}.

Definition empty_dict : jdict :=
  JDict None None None None None None None None.

(** The second component of what [check_experiment] returns. *)
Inductive reason :=
| NoStatusFile                            (* "No status file" *)
| RunningFor (hours : Q)                  (* f"Running for {hours_elapsed:.1f} hours" *)
| ExceededIterations                      (* "Exceeded 20 iterations" *)
| NoProgress (hours : Q)                  (* f"No progress for {hours_since_update:.1f} hours" *)
| Progress (iteration : Z) (hours : Q).   (* f"Iteration {iteration}, {hours_elapsed:.1f} hours" *)

(** What a file holds. *)
Inductive content :=
| Text (s : string)              (* text that is not JSON: json.load raises JSONDecodeError *)
| Json (d : jdict)               (* a JSON object with its keys at the types of jdict:
                                    what json.dump wrote, what json.load returns *)
| WatchdogReport (r : reason).   (* the report template of watchdog.py, with its reason *)

(** One constructor per [print] or [self.log] format string. *)
Inductive message :=
(* watchdog.py *)
| WUsage                         (* "Usage: python watchdog.py experiment_dir" *)
| WStatus (r : reason)           (* f"Status: {reason}" *)
| WCreatingReport                (* "Creating REPORT.md to stop experiment..." *)
| WWillStop                      (* "Experiment will stop on next iteration" *)
(* runner.py, print only *)
| IdeaNotFound                   (* f"ERROR: IDEA.md not found in {self.experiment_dir}" *)
| PleaseCreateIdea               (* "Please create IDEA.md with your experiment description" *)
| CliNotFound                    (* "ERROR: Claude Code CLI not found" *)
| PleaseInstall                  (* "Please install: https://github.com/anthropics/claude-code" *)
(* runner.py, self.log *)
| ResumingSession (sid : string)           (* f"Resuming session: {self.session_id}" *)
| RunningClaude (it : Z)                   (* f"Iteration {self.iteration}: Running Claude analysis..." *)
| SessionSaved (sid : option string)       (* f"Session ID saved: {self.session_id}" *)
| ClaudeResponse (text : string)           (* f"Claude response:\n{content}" *)
| ClaudeCompleted (cost total : Q) (turns : Z)
                                           (* f"Claude analysis completed, cost: ${...} USD, total: {...}, turns: {...}" *)
| ParseFailed (err : string)               (* f"Failed to parse Claude JSON output: {e}" *)
| ClaudeError (text : string)              (* f"Claude error: {error_msg}..." and f"Claude error: {str(e)}" *)
| Retrying                                 (* "Retrying in 30 seconds..." *)
| ClaudeTimedOut                           (* "Claude command timed out" *)
| RunningScript (script : string)          (* f"Running {script_path}..." *)
| TrainingOk                               (* "Training completed successfully" *)
| TrainingFailed (code : Z)                (* f"Training failed with code {result.returncode}" *)
| TrainingTimedOut                         (* "Training timed out after 2 hours" *)
| TrainingError (text : string)            (* f"Training error: {str(e)}" *)
| PlanExists                               (* "PLAN.md already exists, skipping creation" *)
| GpuAvailable (name mem : string)         (* f"GPU available: {gpu_name} ({gpu_mem:.1f}GB)" *)
| NoGpu                                    (* "No GPU available - will use CPU" *)
| TorchNotInstalled                        (* "PyTorch not installed - install dependencies first" *)
| ResourceCheckFailed (text : string)      (* f"Resource check failed: {e}" *)
| Banner                                   (* f"\n{'='*60}" *)
| StartingIteration (it : Z)               (* f"Starting iteration {self.iteration}" *)
| ReportExists                             (* "Experiment complete - REPORT.md exists" *)
| ClaudeFailed                             (* "Claude analysis failed - will retry next iteration" *)
| StartingExperiment                       (* f"Starting automated experiment in {self.experiment_dir}" *)
| AlreadyComplete                          (* "Experiment already complete" *)
| CreatingPlan                             (* "Creating initial experiment plan..." *)
| PlanFailed                               (* "Failed to create plan - exiting" *)
| ExperimentError (text : string)          (* f"\nExperiment error: {e}" *)
| Finished (it : Z)                        (* f"\nExperiment finished after {self.iteration} iterations" *)
| ReportGenerated                          (* "REPORT.md generated successfully" *)
| NoReport.                                (* "No final report generated" *)

(** How a child process is wired: [capture_output=True], or both streams
    redirected to files opened for writing. *)
Inductive stdio :=
| Captured
| ToFiles (out err : string).

(** What a program does to the outside, besides printing and logging. *)
Inductive event :=
| Spawn (cmd : list string) (io : stdio) (timeout : option Z)
                                 (* subprocess.run(cmd, cwd=self.experiment_dir, ..., timeout=...) *)
| Sleep (secs : Z)               (* time.sleep(secs) *)
| Write (path : string) (c : content).
                                 (* open(path, 'w') + json.dump, or Path.write_text *)

(** Paths are relative to the experiment directory. *)
Record world := World {
  fs : gmap string content;
  console : list (option Q * message);   (* standard output; [Some t] for a stamped line *)
  runner_log : list (Q * message);       (* logs/runner.log, opened in append mode only *)
  trace : list event;
  clock_reads : nat                      (* how many times the clock was read *)
}.

(** ** Exceptions

    [SystemExit] is not an [Exception] in Python: [except Exception] lets
    it through, a bare [except:] catches it. *)
Inductive error_kind :=
| TimeoutExpired | JSONDecodeError | KeyError | ImportError
| FileNotFoundError | CalledProcessError | OtherError.

Inductive exn :=
| SystemExit (code : Z)
| Error (k : error_kind) (text : string).   (* an Exception e, with str(e) *)

Definition str_exn (e : exn) : string :=
  match e with
  | SystemExit _ => ""
  | Error _ text => text
  end.

(** ** The environment *)

Inductive claude_result :=
| ClaudeExit (returncode : Z) (stdout : content) (stderr : string)
| ClaudeTimeout                  (* subprocess.TimeoutExpired *)
| ClaudeRaises (text : string).  (* any other exception of subprocess.run *)

Inductive script_result :=
| ScriptExit (returncode : Z)
| ScriptTimeout
| ScriptRaises (text : string).

(** [import torch] and the calls on [torch.cuda]; the memory figure is
    the text of [{gpu_mem:.1f}]. *)
Inductive torch_result :=
| TorchCuda (gpu_name gpu_mem : string)
| TorchNoCuda
| TorchImportError
| TorchRaises (text : string).

(** [subprocess.run(["claude", "--version"], capture_output=True, check=True)] *)
Inductive version_result :=
| VersionOk
| VersionCalledProcessError
| VersionFileNotFound
| VersionRaises (text : string).

(** A child process may leave the files of the directory in any state. *)
Record env := Env {
  time_at : nat -> Q;
  sys_executable : string;
  claude_version : world -> version_result;
  claude_cli : list string -> world -> claude_result * gmap string content;
  python : list string -> world -> script_result * gmap string content;
  torch : world -> torch_result
}.

(** ** The monad: state [S], exceptions, and fuel for the two loops *)

Inductive outcome (A : Type) :=
| Ret (a : A)
| Raise (e : exn)
| OutOfFuel.
Arguments Ret {A} a.
Arguments Raise {A} e.
Arguments OutOfFuel {A}.

Definition M (S A : Type) : Type := S -> outcome A * S.

Definition ret {S A} (a : A) : M S A := fun s => (Ret a, s).

Definition bind {S A B} (m : M S A) (k : A -> M S B) : M S B :=
  fun s =>
    match m s with
    | (Ret a, s') => k a s'
    | (Raise e, s') => (Raise e, s')
    | (OutOfFuel, s') => (OutOfFuel, s')
    end.

Definition raise {S A} (e : exn) : M S A := fun s => (Raise e, s).

(** [try: m  except ...: h]; [h e = None] when no clause matches [e]. *)
Definition try_except {S A} (m : M S A) (h : exn -> option (M S A)) : M S A :=
  fun s =>
    match m s with
    | (Raise e, s') =>
        match h e with
        | Some k => k s'
        | None => (Raise e, s')
        end
    | r => r
    end.

(** [except Exception as e: k e] *)
Definition except_Exception {S A} (k : exn -> M S A) (e : exn) : option (M S A) :=
  match e with
  | Error _ _ => Some (k e)
  | SystemExit _ => None
  end.

(** [except: k] *)
Definition except_any {S A} (k : M S A) (e : exn) : option (M S A) := Some k.

Definition get {S} : M S S := fun s => (Ret s, s).
Definition modify {S} (f : S -> S) : M S unit := fun s => (Ret tt, f s).

Declare Scope monad_scope.
Delimit Scope monad_scope with monad.
Notation "x <- m ;; k" := (bind m (fun x => k))
  (at level 20, m at level 99, k at level 200, only parsing) : monad_scope.
Notation "m ;; k" := (bind m (fun _ => k))
  (at level 100, k at level 200, only parsing, right associativity) : monad_scope.
Local Open Scope monad_scope.

(** The exit status of the Python process that ran [m]: 0 at the end of
    the script, the code of [sys.exit], 1 for an uncaught exception. *)
Definition exit_code {A} (o : outcome A) : option Z :=
  match o with
  | Ret _ => Some 0
  | Raise (SystemExit c) => Some c
  | Raise (Error _ _) => Some 1
  | OutOfFuel => None
  end.

(** ** Rationals *)

(** [a > b] on floats. *)
Definition Qgtb (a b : Q) : bool := negb (Qle_bool a b).

(** [seconds / 3600] *)
Definition hours (seconds : Q) : Q := (seconds / 3600)%Q.

(** ** Primitives on the world *)

Section World.

Variable E : env.

Definition set_fs (f : gmap string content) (w : world) : world :=
  World f (console w) (runner_log w) (trace w) (clock_reads w).

Definition add_console (l : option Q * message) (w : world) : world :=
  World (fs w) (console w ++ [l]) (runner_log w) (trace w) (clock_reads w).

Definition add_log (r : Q * message) (w : world) : world :=
  World (fs w) (console w) (runner_log w ++ [r]) (trace w) (clock_reads w).

Definition add_event (e : event) (w : world) : world :=
  World (fs w) (console w) (runner_log w) (trace w ++ [e]) (clock_reads w).

Definition tick (w : world) : world :=
  World (fs w) (console w) (runner_log w) (trace w) (S (clock_reads w)).

(** [time.time()], and the clock behind [time.strftime]. *)
Definition time : M world Q :=
  fun w => (Ret (time_at E (clock_reads w)), tick w).

(** [print(...)] of a line without a stamp. *)
Definition print (m : message) : M world unit :=
  modify (add_console (None, m)).

(** [path.exists()] *)
Definition path_exists (p : string) : M world bool :=
  fun w => (Ret (bool_decide (is_Some (fs w !! p))), w).

(** [with open(p) as f: json.load(f)]: the object of a file that holds
    one, [JSONDecodeError] on a file that is not JSON (the report
    template is not), [FileNotFoundError] on an absent one. *)
Definition json_load (p : string) : M world jdict :=
  fun w =>
    match fs w !! p with
    | Some (Json d) => (Ret d, w)
    | Some _ => (Raise (Error JSONDecodeError "Expecting value"), w)
    | None => (Raise (Error FileNotFoundError p), w)
    end.

(** [json.dump] into a file opened with ['w'], and [Path.write_text]:
    the file is replaced. *)
Definition write_file (p : string) (c : content) : M world unit :=
  modify (fun w => add_event (Write p c) (set_fs (<[p := c]> (fs w)) w)).

Definition sleep (secs : Z) : M world unit :=
  modify (add_event (Sleep secs)).

Definition sys_exit {A} (code : Z) : M world A := raise (SystemExit code).

(** ** watchdog.py *)

Definition status_file : string := "status.json".
Definition report_file : string := "REPORT.md".

(** [dict.get(key, default)] *)
Definition dict_get {A} (field : option A) (default : A) : A :=
  match field with
  | Some v => v
  | None => default
  end.

Definition check_experiment (max_hours : Q) : M world (bool * reason) :=
  present <- path_exists status_file ;;
  if negb present then ret (false, NoStatusFile) else
  status <- json_load status_file ;;
  (* Check runtime *)
  default1 <- time ;;
  let start_time := dict_get (k_timestamp status) default1 in
  now1 <- time ;;
  let hours_elapsed := hours (now1 - start_time) in
  if Qgtb hours_elapsed max_hours then ret (true, RunningFor hours_elapsed) else
  (* Check iterations *)
  let iteration := dict_get (k_iteration status) 0 in
  if iteration >? 20 then ret (true, ExceededIterations) else
  (* Check if stuck (no progress in 2 hours) *)
  default2 <- time ;;
  let last_update := dict_get (k_timestamp status) default2 in
  now2 <- time ;;
  let hours_since_update := hours (now2 - last_update) in
  if Qgtb hours_since_update 2 then ret (true, NoProgress hours_since_update) else
  ret (false, Progress iteration hours_elapsed).

(** The [__main__] block; [argv] is [sys.argv], and [argv[1]] names the
    directory whose files are [fs]. *)
Definition watchdog_main (argv : list string) : M world unit :=
  if (length argv <? 2)%nat then
    print WUsage ;;
    sys_exit 1
  else
    r <- check_experiment 24 ;;
    let '(should_stop, reason) := r in
    print (WStatus reason) ;;
    if should_stop : bool then
      print WCreatingReport ;;
      write_file report_file (WatchdogReport reason) ;;
      print WWillStop
    else ret tt.

End World.

(** ** Strings *)

(** [str(n)] for an [int]. *)
Definition str_Z (n : Z) : string := NilEmpty.string_of_int (Z.to_int n).

Definition lower_ascii (c : ascii) : ascii :=
  let n := nat_of_ascii c in
  if ((65 <=? n) && (n <=? 90))%nat then ascii_of_nat (n + 32) else c.

(** [s.lower()], on ASCII text. *)
Fixpoint lower (s : string) : string :=
  match s with
  | EmptyString => EmptyString
  | String c s' => String (lower_ascii c) (lower s')
  end.

(** [pat in s] *)
Definition contains (pat s : string) : bool :=
  match String.index 0 pat s with
  | Some _ => true
  | None => false
  end.

(** Truth value of a [str] or [None]. *)
Definition truthy (o : option string) : bool :=
  match o with
  | Some s => negb (String.eqb s "")
  | None => false
  end.

(** [error_msg = result.stderr[:200] if result.stderr else "Unknown error"] *)
Definition error_msg_of (stderr : string) : string :=
  if truthy (Some stderr) then String.substring 0 200 stderr else "Unknown error".

(** [retry_count < 2 and "rate limit" in error_msg.lower()] *)
Definition is_transient (retry_count : Z) (error_msg : string) : bool :=
  (retry_count <? 2) && contains "rate limit" (lower error_msg).

(** ** runner.py: the object and its files *)

(** The arguments of the constructor, as [main] passes them on. *)
Record config := Config {
  max_iterations : Z;
  allow_uv : bool;
  allow_pip : bool
}.

(** The attributes of [self] that change.  [gpu_info = None] when the
    attribute does not exist yet ([hasattr] is false). *)
Record runner := Runner {
  iteration : Z;
  session_id : option string;
  gpu_info : option (option string)
}.

Record state := State {
  self : runner;
  outside : world
}.

Definition idea_file : string := "IDEA.md".
Definition plan_file : string := "PLAN.md".
Definition logs_dir : string := "logs".
Definition runner_log_file : string := "logs/runner.log".

Definition stdout_file (it : Z) : string := "logs/iter_" +:+ str_Z it +:+ "_stdout.txt".
Definition stderr_file (it : Z) : string := "logs/iter_" +:+ str_Z it +:+ "_stderr.txt".
Definition debug_file (it : Z) : string := "logs/claude_raw_output_" +:+ str_Z it +:+ ".txt".
Definition timeout_file (it : Z) : string := "logs/timeout_prompt_" +:+ str_Z it +:+ ".txt".
Definition json_file (it : Z) : string := "logs/claude_response_" +:+ str_Z it +:+ ".json".

Definition train_scripts : list string := ["temp_check.py"; "train.py"].

(** ** Prompts *)

Definition uv_line : string := "
- You can install Python libraries using `uv pip install package_name`".
Definition pip_line : string := "
- You can install Python libraries using `pip install package_name`".
Definition uv_note : string := "

Note: You can install Python libraries using `uv pip install package_name`".
Definition pip_note : string := "

Note: You can install Python libraries using `pip install package_name`".

Definition plan_prompt (cfg : config) (gpu : option (option string)) : string :=
  "Read IDEA.md and create a detailed PLAN.md that includes:
1. Clear objectives and success metrics
2. Simple initial implementation approach
3. Key hyperparameters to start with
4. Expected challenges and solutions

Focus on getting a minimal working version first.

System Information:
- " +:+
  match gpu with
  | Some (Some info) => info
  | Some None => "None"
  | None => "GPU status unknown"
  end +:+
  (if allow_uv cfg then uv_line else "") +:+
  (if allow_pip cfg then pip_line else "").

Definition first_prompt (cfg : config) (it : Z) : string :=
  "This is iteration " +:+ str_Z it +:+ " of the ML experiment.

First examine these files:
- PLAN.md (the experiment plan)
- logs/iter_" +:+ str_Z it +:+ "_stderr.txt (check for errors)
- logs/iter_" +:+ str_Z it +:+ "_stdout.txt (training output)

Based on the results:
1. If there are errors, fix them in the training script
2. If training worked, analyze performance and suggest improvements
3. Make small, focused changes to improve results

Create or update the training script as needed." +:+
  (if allow_uv cfg then uv_note else "") +:+
  (if allow_pip cfg then pip_note else "").

Definition later_prompt (cfg : config) (it : Z) (success : bool) (error : string) : string :=
  "This is iteration " +:+ str_Z it +:+ ". The previous training " +:+
  (if success then "succeeded" else "failed: " +:+ error) +:+ ".

Examine the latest logs and results, then:
1. Fix any errors if present
2. Improve hyperparameters or architecture if needed
3. If the experiment has achieved its goals, create REPORT.md
" +:+
  (if allow_uv cfg then uv_note else "") +:+
  (if allow_pip cfg then pip_note else "").

(** ** runner.py: class ExperimentRunner *)

Section Runner.

Variable E : env.
Variable cfg : config.

(** A world operation, run from a method of [self]. *)
Definition lift {A} (m : M world A) : M state A :=
  fun s =>
    let (o, w) := m (outside s) in
    (o, State (self s) w).

Definition set_iteration (it : Z) : M state unit :=
  modify (fun s => State (Runner it (session_id (self s)) (gpu_info (self s))) (outside s)).

Definition set_session_id (sid : option string) : M state unit :=
  modify (fun s => State (Runner (iteration (self s)) sid (gpu_info (self s))) (outside s)).

Definition set_gpu_info (info : option string) : M state unit :=
  modify (fun s => State (Runner (iteration (self s)) (session_id (self s)) (Some info)) (outside s)).

Definition out_of_fuel {A} : M state A := fun s => (OutOfFuel, s).

(** [output_data[key]] *)
Definition getitem {A} (field : option A) (key : string) : M state A :=
  match field with
  | Some v => ret v
  | None => raise (Error KeyError ("'" +:+ key +:+ "'"))
  end.

Definition _validate_setup : M world unit :=
  present <- path_exists idea_file ;;
  if negb present then
    print IdeaNotFound ;;
    print PleaseCreateIdea ;;
    sys_exit 1
  else ret tt.

Definition log_w (message : message) : M world unit :=
  timestamp <- time E ;;
  modify (add_console (Some timestamp, message)) ;;
  (* Also save to file *)
  modify (add_log (timestamp, message)).

Definition log (message : message) : M state unit := lift (log_w message).

(** The world after [self.log(message)]. *)
Definition logged (message : message) (w : world) : world :=
  add_log (time_at E (clock_reads w), message)
    (add_console (Some (time_at E (clock_reads w)), message) (tick w)).

Definition save_status : M state unit :=
  s <- get ;;
  timestamp <- lift (time E) ;;
  complete <- lift (path_exists report_file) ;;
  lift (write_file status_file
          (Json (JDict (Some (iteration (self s))) (Some timestamp) (Some complete)
                       (Some (session_id (self s))) None None None None))).

(** The world after [self.save_status()] on the object [r]. *)
Definition saved (r : runner) (w : world) : world :=
  let doc := Json (JDict (Some (iteration r)) (Some (time_at E (clock_reads w)))
                         (Some (bool_decide (is_Some (fs w !! report_file))))
                         (Some (session_id r)) None None None None) in
  add_event (Write status_file doc) (set_fs (<[status_file := doc]> (fs w)) (tick w)).

Definition get_session_id : M world (option string) :=
  present <- path_exists status_file ;;
  if present : bool then
    try_except
      (status <- json_load status_file ;;
       ret (dict_get (k_session_id status) None))
      (except_any (ret None))
  else ret None.

(** [save_session_id] is defined by the class and called nowhere.  The
    assignment [status["session_id"] = session_id] stands outside the
    [try]; on the objects of the embedding it cannot fail. *)
Definition save_session_id (sid : string) : M world unit :=
  present <- path_exists status_file ;;
  status <- (if present : bool then
               try_except (json_load status_file) (except_any (ret empty_dict))
             else ret empty_dict) ;;
  write_file status_file
    (Json (JDict (k_iteration status) (k_timestamp status) (k_complete status)
                 (Some (Some sid)) (k_result status) (k_cost_usd status)
                 (k_total_cost status) (k_num_turns status))).

(** [Path.mkdir(exist_ok=True)] inside the experiment directory, for a
    path that is not a file: the directory is there afterwards, and no
    file of the world changes. *)
Definition mkdir (p : string) : M world unit :=
  ret tt.

(** [ExperimentRunner(...)]: the new object.  [logs/] is created before
    the setup is validated. *)
Definition init : M world runner :=
  mkdir logs_dir ;;
  _validate_setup ;;
  sid <- get_session_id ;;
  ret (Runner 0 sid None).

Definition _log_claude_output (output_data : jdict) : M state unit :=
  (match k_result output_data with
   | Some content => log (ClaudeResponse content)
   | None => ret tt
   end) ;;
  (* Save full JSON for debugging *)
  s <- get ;;
  lift (write_file (json_file (iteration (self s))) (Json output_data)).

Definition allowed_tools : string :=
  "Edit,Write,WebFetch,Bash(ls:*)" +:+
  (if allow_uv cfg then ",Bash(uv:*)" else "") +:+
  (if allow_pip cfg then ",Bash(pip:*)" else "").

(** The command line of one assistant invocation. *)
Definition build_cmd (sid : option string) (prompt : string) : list string :=
  ["claude"; "--output-format"; "json"; "--allowedTools"; allowed_tools] ++
  (if truthy sid then ["--resume"; dict_get sid ""] else []) ++
  ["-p"; prompt].

(** [subprocess.run(cmd, cwd=..., capture_output=True, text=True, timeout=600)] *)
Definition subprocess_run_claude (cmd : list string) : M world (Z * content * string) :=
  fun w =>
    let (r, files) := claude_cli E cmd w in
    let w' := set_fs files (add_event (Spawn cmd Captured (Some 600)) w) in
    match r with
    | ClaudeExit returncode stdout stderr => (Ret (returncode, stdout, stderr), w')
    | ClaudeTimeout => (Raise (Error TimeoutExpired "timed out after 600 seconds"), w')
    | ClaudeRaises text => (Raise (Error OtherError text), w')
    end.

(** [json.loads(result.stdout)] *)
Definition json_loads (stdout : content) : M state jdict :=
  match stdout with
  | Json d => ret d
  | _ => raise (Error JSONDecodeError "Expecting value")
  end.

(** The inner [try] of [run_claude] (the branch [result.returncode == 0]):
    parse the output, adopt the session, log the accounting. *)
Definition run_claude_parse (stdout : content) : M state bool :=
  try_except
    (output_data <- json_loads stdout ;;
     (* Extract session ID from first call *)
     (match k_session_id output_data with
      | Some sid =>
          set_session_id sid ;;
          save_status ;;
          log (SessionSaved sid)
      | None => ret tt
      end) ;;
     (* Log formatted output *)
     _log_claude_output output_data ;;
     cost <- getitem (k_cost_usd output_data) "cost_usd" ;;
     total <- getitem (k_total_cost output_data) "total_cost" ;;
     turns <- getitem (k_num_turns output_data) "num_turns" ;;
     log (ClaudeCompleted cost total turns) ;;
     ret true)
    (fun e =>
       match e with
       | Error JSONDecodeError text =>
           Some (log (ParseFailed text) ;;
                 (* Save raw output for debugging *)
                 s <- get ;;
                 lift (write_file (debug_file (iteration (self s))) stdout) ;;
                 ret false)
       | _ => None
       end).

(** The two [except] clauses of the outer [try] of [run_claude]. *)
Definition run_claude_except (prompt : string) (e : exn) : option (M state bool) :=
  match e with
  | Error TimeoutExpired _ =>
      Some (log ClaudeTimedOut ;;
            (* Save prompt for manual inspection *)
            s <- get ;;
            lift (write_file (timeout_file (iteration (self s))) (Text prompt)) ;;
            ret false)
  | Error _ _ =>
      Some (log (ClaudeError (str_exn e)) ;;
            ret false)
  | SystemExit _ => None
  end.

(** [run_claude]; the recursive call of the retry consumes one unit of
    [fuel]. *)
Fixpoint run_claude_fuel (fuel : nat) (prompt : string) (retry_count : Z) : M state bool :=
  match fuel with
  | O => out_of_fuel
  | S fuel' =>
    s <- get ;;
    (* Add resume flag if we have a session ID *)
    (if truthy (session_id (self s))
     then log (ResumingSession (dict_get (session_id (self s)) ""))
     else ret tt) ;;
    let cmd := build_cmd (session_id (self s)) prompt in
    log (RunningClaude (iteration (self s))) ;;
    try_except
      (result <- lift (subprocess_run_claude cmd) ;;
       let '(returncode, stdout, stderr) := result in
       if returncode =? 0 then
         (* Parse JSON output *)
         run_claude_parse stdout
       else
         let error_msg := error_msg_of stderr in
         log (ClaudeError error_msg) ;;
         (* Retry logic for transient failures *)
         if is_transient retry_count error_msg then
           log Retrying ;;
           lift (sleep 30) ;;
           run_claude_fuel fuel' prompt (retry_count + 1)
         else ret false)
      (run_claude_except prompt)
  end.

(** A call needs at most [2 - retry_count] nested calls. *)
Definition run_claude (prompt : string) (retry_count : Z) : M state bool :=
  run_claude_fuel (S (Z.to_nat (2 - retry_count))) prompt retry_count.

(** The [for script in train_scripts] loop with its [break]. *)
Fixpoint find_script (scripts : list string) : M world (option string) :=
  match scripts with
  | [] => ret None
  | script :: rest =>
      present <- path_exists script ;;
      if present : bool then ret (Some script) else find_script rest
  end.

(** [subprocess.run([sys.executable, script_path], cwd=..., stdout=out,
    stderr=err, timeout=7200)] inside [with open(..., 'w') as out,
    open(..., 'w') as err]. *)
Definition subprocess_run_script (cmd : list string) (out err : string) : M world Z :=
  write_file out (Text "") ;;
  write_file err (Text "") ;;
  fun w =>
    let (r, files) := python E cmd w in
    let w' := set_fs files (add_event (Spawn cmd (ToFiles out err) (Some 7200)) w) in
    match r with
    | ScriptExit returncode => (Ret returncode, w')
    | ScriptTimeout => (Raise (Error TimeoutExpired "timed out after 7200 seconds"), w')
    | ScriptRaises text => (Raise (Error OtherError text), w')
    end.

Definition run_training : M state (bool * string) :=
  (* Find training script *)
  script_path <- lift (find_script train_scripts) ;;
  if negb (truthy script_path) then ret (false, "No training script found") else
  let script_path := dict_get script_path "" in
  log (RunningScript script_path) ;;
  s <- get ;;
  try_except
    (returncode <- lift (subprocess_run_script [sys_executable E; script_path]
                           (stdout_file (iteration (self s)))
                           (stderr_file (iteration (self s)))) ;;
     if returncode =? 0 then
       log TrainingOk ;;
       ret (true, "Success")
     else
       log (TrainingFailed returncode) ;;
       ret (false, "Exit code " +:+ str_Z returncode))
    (fun e =>
       match e with
       | Error TimeoutExpired _ =>
           Some (log TrainingTimedOut ;;
                 ret (false, "Timeout"))
       | Error _ _ =>
           Some (log (TrainingError (str_exn e)) ;;
                 ret (false, str_exn e))
       | SystemExit _ => None
       end).

(** [import torch] and the queries on [torch.cuda]. *)
Definition probe_torch : M state (option (string * string)) :=
  fun s =>
    match torch E (outside s) with
    | TorchCuda gpu_name gpu_mem => (Ret (Some (gpu_name, gpu_mem)), s)
    | TorchNoCuda => (Ret None, s)
    | TorchImportError => (Raise (Error ImportError "No module named 'torch'"), s)
    | TorchRaises text => (Raise (Error OtherError text), s)
    end.

Definition _check_resources : M state unit :=
  set_gpu_info None ;;
  try_except
    (cuda <- probe_torch ;;
     match cuda with
     | Some (gpu_name, gpu_mem) =>
         set_gpu_info (Some ("GPU: " +:+ gpu_name +:+ " (" +:+ gpu_mem +:+ "GB)")) ;;
         log (GpuAvailable gpu_name gpu_mem)
     | None =>
         set_gpu_info (Some "No GPU available - using CPU") ;;
         log NoGpu
     end)
    (fun e =>
       match e with
       | Error ImportError _ =>
           Some (set_gpu_info (Some "PyTorch not installed") ;;
                 log TorchNotInstalled ;;
                 raise (SystemExit 1))
       | Error _ text =>
           Some (set_gpu_info (Some ("Resource check failed: " +:+ text)) ;;
                 log (ResourceCheckFailed text) ;;
                 raise (SystemExit 1))
       | SystemExit _ => None
       end).

Definition create_initial_plan : M state bool :=
  present <- lift (path_exists plan_file) ;;
  if present : bool then
    log PlanExists ;;
    ret true
  else
    (* Check available resources *)
    _check_resources ;;
    s <- get ;;
    run_claude (plan_prompt cfg (gpu_info (self s))) 0.

Definition run_iteration : M state bool :=
  s0 <- get ;;
  set_iteration (iteration (self s0) + 1) ;;
  log Banner ;;
  s <- get ;;
  log (StartingIteration (iteration (self s))) ;;
  (* Check if complete *)
  complete <- lift (path_exists report_file) ;;
  if complete : bool then
    log ReportExists ;;
    ret false
  else
    (* Step 1: Run training if script exists *)
    r <- run_training ;;
    let '(success, error) := r in
    (* Step 2: Analyze with Claude *)
    prompt <-
      (if iteration (self s) =? 1 then
         (* Check resources if not already done *)
         s1 <- get ;;
         (match gpu_info (self s1) with
          | None => _check_resources
          | Some _ => ret tt
          end) ;;
         ret (first_prompt cfg (iteration (self s)))
       else
         ret (later_prompt cfg (iteration (self s)) success error)) ;;
    claude_success <- run_claude prompt 0 ;;
    (if negb claude_success then log ClaudeFailed else ret tt) ;;
    save_status ;;
    ret true.  (* Continue iterating *)

(** The [while self.iteration < self.max_iterations] loop of [run]; each
    pass consumes one unit of [fuel]. *)
Fixpoint main_loop (fuel : nat) : M state unit :=
  match fuel with
  | O => out_of_fuel
  | S fuel' =>
      s <- get ;;
      if iteration (self s) <? max_iterations cfg then
        continue <- run_iteration ;;
        if negb continue then ret tt  (* break *)
        else
          lift (sleep 3) ;;  (* Brief pause between iterations *)
          main_loop fuel'
      else ret tt
  end.

(** The counter grows by one in each pass, so the loop makes at most
    [max_iterations - iteration] passes and one last test. *)
Definition loop_fuel (s : state) : nat :=
  S (Z.to_nat (max_iterations cfg - iteration (self s))).

(** The block "Load previous iteration if resuming" of [run]; the value
    is whether the stored status says complete. *)
Definition run_load_previous : M state bool :=
  present <- lift (path_exists status_file) ;;
  if present : bool then
    status <- lift (json_load status_file) ;;
    set_iteration (dict_get (k_iteration status) 0) ;;
    ret (dict_get (k_complete status) false)
  else ret false.

Definition run : M state unit :=
  log StartingExperiment ;;
  complete <- run_load_previous ;;
  if complete : bool then
    log AlreadyComplete  (* return *)
  else
    (* Create initial plan *)
    planned <- lift (path_exists plan_file) ;;
    proceed <-
      (if negb planned then
         log CreatingPlan ;;
         created <- create_initial_plan ;;
         if negb created then
           log PlanFailed ;;
           ret false  (* return *)
         else
           lift (sleep 2) ;;  (* Brief pause *)
           ret true
       else ret true) ;;
    if negb proceed then ret tt
    else
      (* Main experiment loop *)
      try_except
        (s <- get ;;
         main_loop (loop_fuel s))
        (except_Exception (fun e => log (ExperimentError (str_exn e)))) ;;
      (* Final summary *)
      s <- get ;;
      log (Finished (iteration (self s))) ;;
      reported <- lift (path_exists report_file) ;;
      (if reported : bool then log ReportGenerated else log NoReport) ;;
      save_status.

(** [runner = ExperimentRunner(...); runner.run()] on the current world. *)
Definition with_self {A} (r : runner) (m : M state A) : M world A :=
  fun w =>
    let (o, s) := m (State r w) in
    (o, outside s).

(** [subprocess.run(["claude", "--version"], capture_output=True, check=True)] *)
Definition subprocess_run_version : M world unit :=
  fun w =>
    let w' := add_event (Spawn ["claude"; "--version"] Captured None) w in
    match claude_version E w with
    | VersionOk => (Ret tt, w')
    | VersionCalledProcessError =>
        (Raise (Error CalledProcessError "returned non-zero exit status"), w')
    | VersionFileNotFound => (Raise (Error FileNotFoundError "claude"), w')
    | VersionRaises text => (Raise (Error OtherError text), w')
    end.

(** [main], after [parser.parse_args()] produced [cfg]. *)
Definition main : M world unit :=
  (* Verify Claude is available *)
  try_except
    subprocess_run_version
    (fun e =>
       match e with
       | Error CalledProcessError _ | Error FileNotFoundError _ =>
           Some (print CliNotFound ;;
                 print PleaseInstall ;;
                 sys_exit 1)
       | _ => None
       end) ;;
  (* Run experiment *)
  runner <- init ;;
  with_self runner run.

End Runner.

(** ** Scenarios

    Concrete environments and worlds, used to run the programs. *)

(** An environment whose clock stands still at [now], with no assistant,
    no interpreter and no GPU. *)
Definition quiet_env (now : Q) : env :=
  Env (fun _ => now) "python3"
      (fun _ => VersionOk)
      (fun _ w => (ClaudeRaises "not available", fs w))
      (fun _ w => (ScriptRaises "not available", fs w))
      (fun _ => TorchNoCuda).

Definition world_of (files : gmap string content) : world :=
  World files [] [] [] 0.

(** The document [save_status] writes. *)
Definition status_doc (it : Z) (timestamp : Q) (complete : bool) (sid : option string) : content :=
  Json (JDict (Some it) (Some timestamp) (Some complete) (Some sid) None None None None).

(** How many times the assistant was started so far. *)
Definition assistant_call (e : event) : bool :=
  match e with
  | Spawn ("claude" :: _) Captured (Some _) => true
  | _ => false
  end.

Definition assistant_calls (tr : list event) : nat :=
  length (List.filter assistant_call tr).

(** An environment that replays [answers]: the n-th run of the assistant
    ends as the n-th answer says and leaves the files listed with it;
    every training script ends as [script]; the clock advances by one
    second per reading. *)
Definition replay_env (now : Q) (answers : list (claude_result * list (string * content)))
    (script : script_result) (gpu : torch_result) : env :=
  Env (fun n => (now + inject_Z (Z.of_nat n))%Q) "python3"
      (fun _ => VersionOk)
      (fun _ w =>
         match nth_error answers (assistant_calls (trace w)) with
         | Some (r, files) =>
             (r, fold_right (fun pc f => <[fst pc := snd pc]> f) (fs w) files)
         | None => (ClaudeRaises "no answer", fs w)
         end)
      (fun _ w => (script, fs w))
      (fun _ => gpu).

(** A response of the assistant with all its keys. *)
Definition response (sid : string) (text : string) : content :=
  Json (JDict None None None (Some (Some sid)) (Some text) (Some 0.5%Q) (Some 1.5%Q) (Some 3)).

(** A directory with the idea and a training script, nothing else. *)
Definition new_experiment : world :=
  world_of {[ "IDEA.md" := Text "idea"; "train.py" := Text "print(1)" ]}.

(** The options of a run: ten iterations, no package installation. *)
Definition default_config : config := Config 10 false false.

(** A new object: counter 0, no session, no resource information. *)
Definition new_runner : runner := Runner 0 None None.

(** The assistant is rate limited twice and then completes the plan. *)
Definition rate_limited_twice : env :=
  replay_env 1000
    [(ClaudeExit 1 (Text "") "Error: Rate limit exceeded", []);
     (ClaudeExit 1 (Text "") "Error: Rate limit exceeded", []);
     (ClaudeExit 0 (response "s1" "planned") "", [("PLAN.md", Text "plan")])]
    (ScriptExit 0) TorchNoCuda.

(** The assistant fails for good on its first run. *)
Definition assistant_broken : env :=
  replay_env 1000
    [(ClaudeExit 2 (Text "") "Error: invalid API key", [])]
    (ScriptExit 0) TorchNoCuda.

(** The assistant answers with a session but without the accounting
    keys. *)
Definition assistant_unaccounted : env :=
  replay_env 1000
    [(ClaudeExit 0 (Json (JDict None None None (Some (Some "s9")) (Some "hello")
                              None None None)) "", [])]
    (ScriptExit 0) TorchNoCuda.

(** The assistant writes the plan, then the report in the first pass. *)
Definition assistant_finishes : env :=
  replay_env 1000
    [(ClaudeExit 0 (response "s1" "planned") "", [("PLAN.md", Text "plan")]);
     (ClaudeExit 0 (response "s1" "done") "", [("REPORT.md", Text "report")])]
    (ScriptExit 0) TorchNoCuda.

(** ** Reference definitions

    Statements of the documentation, written out to be compared with the
    programs. *)

(** What [check_experiment] answers on a readable status document, in
    terms of the two clock readings it compares the stamp with. *)
Definition verdict (now1 now2 ts : Q) (it : Z) : bool * reason :=
  if Qlt_le_dec (ts + inject_Z (24 * 3600)) now1 then (true, RunningFor (hours (now1 - ts)))
  else if Z_lt_dec 20 it then (true, ExceededIterations)
  else if Qlt_le_dec (ts + inject_Z (2 * 3600)) now2 then (true, NoProgress (hours (now2 - ts)))
  else (false, Progress it (hours (now1 - ts))).

(** The iteration values that [save_status] wrote, oldest first. *)
Definition persisted_by (e : event) : list Z :=
  match e with
  | Write path (Json d) =>
      if String.eqb path status_file
      then match k_iteration d with Some it => [it] | None => [] end
      else []
  | _ => []
  end.

Definition persisted (tr : list event) : list Z := flat_map persisted_by tr.

(** The command lines of the child processes, oldest first. *)
Definition spawned_by (e : event) : list (list string) :=
  match e with
  | Spawn cmd _ _ => [cmd]
  | _ => []
  end.

Definition spawns (tr : list event) : list (list string) := flat_map spawned_by tr.

(** The pauses, oldest first. *)
Definition slept_by (e : event) : list Z :=
  match e with
  | Sleep secs => [secs]
  | _ => []
  end.

Definition sleeps (tr : list event) : list Z := flat_map slept_by tr.

(** [wpx m Q R s]: run from [s], [m] either returns a value and a state
    that satisfy [Q], or raises an exception with a state that satisfy
    [R]; it does not run out of fuel. *)
Definition wpx {S A} (m : M S A) (Q : A -> S -> Prop) (R : exn -> S -> Prop) (s : S) : Prop :=
  match m s with
  | (Ret a, s') => Q a s'
  | (Raise e, s') => R e s'
  | (OutOfFuel, _) => False
  end.

(** [same_pass s s']: from [s] to [s'] the counter did not move, and
    every status write in between stored its value. *)
Definition same_pass (s s' : state) : Prop :=
  iteration (self s') = iteration (self s) /\
  exists evs,
    trace (outside s') = (trace (outside s) ++ evs)%list /\
    Forall (fun v => v = iteration (self s)) (persisted evs).

(** [next_pass s s']: from [s] to [s'] the counter moved up by one, and
    every status write in between stored the new value. *)
Definition next_pass (s s' : state) : Prop :=
  iteration (self s') = iteration (self s) + 1 /\
  exists evs,
    trace (outside s') = (trace (outside s) ++ evs)%list /\
    Forall (fun v => v = iteration (self s) + 1) (persisted evs).

(** The stored values never decrease, and none is above the counter. *)
Definition monotone (s : state) : Prop :=
  StronglySorted Z.le (persisted (trace (outside s)) ++ [iteration (self s)])%list.

(** The iteration a new process resumes from. *)
Definition stored_iteration (w : world) : Z :=
  match fs w !! status_file with
  | Some (Json d) => dict_get (k_iteration d) 0
  | _ => 0
  end.

(** The compute-resource check passes. *)
Definition torch_ok (t : torch_result) : bool :=
  match t with
  | TorchCuda _ _ | TorchNoCuda => true
  | TorchImportError | TorchRaises _ => false
  end.

(** The world in which the training script starts: [self.log] announced
    it and both capture files were opened for writing. *)
Definition at_training_spawn (E : env) (it : Z) (script : string) (w : world) : world :=
  let w1 := logged E (RunningScript script) w in
  let w2 := add_event (Write (stdout_file it) (Text ""))
              (set_fs (<[stdout_file it := Text ""]> (fs w1)) w1) in
  add_event (Write (stderr_file it) (Text ""))
    (set_fs (<[stderr_file it := Text ""]> (fs w2)) w2).

(** The pair the documentation asks of [run_training] for each way the
    script can end. *)
Definition training_report (r : script_result) : bool * string :=
  match r with
  | ScriptExit returncode =>
      if returncode =? 0 then (true, "Success")
      else (false, "Exit code " +:+ str_Z returncode)
  | ScriptTimeout => (false, "Timeout")
  | ScriptRaises text => (false, text)
  end.

(** The object once [run] has loaded the previous status, if any. *)
Definition loaded (r : runner) (w : world) : runner :=
  match fs w !! status_file with
  | Some (Json d) => Runner (dict_get (k_iteration d) 0) (session_id r) (gpu_info r)
  | _ => r
  end.

(** Some import of torch fails or some query on it raises. *)
Definition torch_fails (E : env) : Prop :=
  exists w, torch_ok (torch E w) = false.

(** [logs/] can be created: the experiment directory exists (it holds a
    file) and [logs] is not the name of a file in it. *)
Definition logs_dir_creatable (w : world) : Prop :=
  (exists p, is_Some (fs w !! p)) /\ fs w !! logs_dir = None.

(** The contents of status.json that the embedding covers: the file is
    absent, holds a JSON object (with its keys at the types of [jdict]),
    or holds text that [json.load] rejects. *)
Definition status_covered (w : world) : Prop :=
  fs w !! status_file = None \/
  (exists d, fs w !! status_file = Some (Json d)) \/
  (exists text, fst (json_load status_file w) = Raise (Error JSONDecodeError text)).

(** status.json is absent or holds a JSON object (with its keys at the
    types of [jdict]). *)
Definition readable (w : world) : Prop :=
  match fs w !! status_file with
  | Some (Json _) | None => True
  | Some _ => False
  end.

(** The world in which the assistant starts: the announcements of
    [run_claude] were logged. *)
Definition at_claude_spawn (E : env) (r : runner) (w : world) : world :=
  logged E (RunningClaude (iteration r))
    (if truthy (session_id r)
     then logged E (ResumingSession (dict_get (session_id r) "")) w
     else w).

(** The world after a run of the assistant that started in [w]. *)
Definition after_claude (E : env) (cmd : list string) (w : world) : world :=
  set_fs (snd (claude_cli E cmd w)) (add_event (Spawn cmd Captured (Some 600)) w).

(** The world in which a retry starts: the error was logged, the retry
    was announced and 30 seconds went by. *)
Definition before_retry (E : env) (stderr : string) (w : world) : world :=
  add_event (Sleep 30)
    (logged E Retrying (logged E (ClaudeError (error_msg_of stderr)) w)).

(** The response carries the three accounting keys. *)
Definition accounted (d : jdict) : bool :=
  match k_cost_usd d, k_total_cost d, k_num_turns d with
  | Some _, Some _, Some _ => true
  | _, _, _ => false
  end.

(** [appends P s s']: from [s] to [s'] the trace only grew, by events
    that satisfy [P]. *)
Definition appends (P : event -> Prop) (s s' : state) : Prop :=
  exists evs,
    trace (outside s') = (trace (outside s) ++ evs)%list /\ Forall P evs.

Definition is_write (e : event) : Prop :=
  match e with
  | Write _ _ => True
  | _ => False
  end.

(** The attempt that [run_claude] makes from the object [r] in the world
    [w] ends with a non-zero exit code and the error text [stderr]. *)
Definition attempt_fails (E : env) (cfg : config) (prompt : string) (r : runner) (w : world)
    (stderr : string) : Prop :=
  exists returncode stdout,
    fst (claude_cli E (build_cmd cfg (session_id r) prompt) (at_claude_spawn E r w)) =
      ClaudeExit returncode stdout stderr /\
    returncode <> 0.

(** The error text, as [run_claude] truncates it, has the signature of a
    rate limit. *)
Definition rate_limit_text (stderr : string) : bool :=
  contains "rate limit" (lower (error_msg_of stderr)).

(** The world in which the next attempt starts after such a failure. *)
Definition retry_world (E : env) (cfg : config) (prompt : string) (r : runner) (w : world)
    (stderr : string) : world :=
  before_retry E stderr
    (after_claude E (build_cmd cfg (session_id r) prompt) (at_claude_spawn E r w)).

(** The lines with which the runner reports a failure of the assistant,
    of the training script, and of the resource check. *)
Definition assistant_failure (m : message) : bool :=
  match m with
  | ParseFailed _ | ClaudeError _ | ClaudeTimedOut => true
  | _ => false
  end.

Definition training_failure (m : message) : bool :=
  match m with
  | TrainingFailed _ | TrainingTimedOut | TrainingError _ => true
  | _ => false
  end.

Definition resource_failure (m : message) : bool :=
  match m with
  | TorchNotInstalled | ResourceCheckFailed _ => true
  | _ => false
  end.

(** One of the records is a line of the kind [P]. *)
Definition has_line (P : message -> bool) (ls : list (Q * message)) : bool :=
  existsb (fun l => P (snd l)) ls.

(** A record of runner.log, as it was printed. *)
Definition printed (l : Q * message) : option Q * message := (Some (fst l), snd l).

(** [log_grows w w' ls]: from [w] to [w'] the records [ls] were appended
    to runner.log, each was printed with its stamp, and nothing else was
    printed. *)
Definition log_grows (w w' : world) (ls : list (Q * message)) : Prop :=
  runner_log w' = (runner_log w ++ ls)%list /\
  console w' = (console w ++ map printed ls)%list.
(** * Properties *)

Local Open Scope list_scope.

(** ** Rationals *)

Lemma Qgtb_true a b : Qgtb a b = true <-> (b < a)%Q.
Proof.
  unfold Qgtb. rewrite negb_true_iff, <- not_true_iff_false, Qle_bool_iff.
  split; [apply Qnot_le_lt | apply Qlt_not_le].
Qed.

Lemma Qgtb_false a b : Qgtb a b = false <-> (a <= b)%Q.
Proof.
  unfold Qgtb. rewrite negb_false_iff. apply Qle_bool_iff.
Qed.

Lemma hours_gt seconds (h : Z) :
  (inject_Z h < hours seconds)%Q <-> (inject_Z (h * 3600) < seconds)%Q.
Proof.
  unfold hours, Qdiv. rewrite inject_Z_mult.
  change (inject_Z 3600) with 3600%Q.
  assert (Hs : (seconds * / 3600 * 3600 == seconds)%Q) by field.
  rewrite <- Hs at 2.
  symmetry. apply Qmult_lt_r. reflexivity.
Qed.

(** [hours_elapsed > h] says that the stamp is more than [h] hours old. *)
Lemma older_than (h : Z) (now ts : Q) :
  Qgtb (hours (now - ts)) (inject_Z h) = true <-> (ts + inject_Z (h * 3600) < now)%Q.
Proof.
  rewrite Qgtb_true, hours_gt. split; intros H; lra.
Qed.

Lemma not_older_than (h : Z) (now ts : Q) :
  Qgtb (hours (now - ts)) (inject_Z h) = false <-> (now <= ts + inject_Z (h * 3600))%Q.
Proof.
  rewrite <- not_true_iff_false, older_than. split.
  - apply Qnot_lt_le.
  - apply Qle_not_lt.
Qed.

(** ** The watchdog *)

Section Watchdog.

Variable E : env.

Lemma path_exists_present p w c :
  fs w !! p = Some c -> path_exists p w = (Ret true, w).
Proof.
  intros H. unfold path_exists. rewrite H. reflexivity.
Qed.

Lemma path_exists_absent p w :
  fs w !! p = None -> path_exists p w = (Ret false, w).
Proof.
  intros H. unfold path_exists. rewrite H. reflexivity.
Qed.

Lemma check_experiment_verdict w d ts :
  fs w !! status_file = Some (Json d) ->
  k_timestamp d = Some ts ->
  fst (check_experiment E 24 w) =
    Ret (verdict (time_at E (S (clock_reads w)))
                 (time_at E (S (S (S (clock_reads w)))))
                 ts (dict_get (k_iteration d) 0)).
Proof.
  intros Hfile Hts.
  unfold check_experiment, verdict, bind.
  rewrite (path_exists_present _ _ _ Hfile). simpl.
  unfold json_load. rewrite Hfile, Hts. simpl.
  change 24%Q with (inject_Z 24). change 2%Q with (inject_Z 2).
  destruct (Qlt_le_dec _ (time_at E (S (clock_reads w)))) as [Hold | Hyoung].
  - apply (older_than 24) in Hold. rewrite Hold. reflexivity.
  - apply (not_older_than 24) in Hyoung. rewrite Hyoung.
    destruct (Z_lt_dec 20 _) as [Hit | Hit].
    + apply Z.gtb_lt in Hit. rewrite Hit. reflexivity.
    + assert (Hle : (dict_get (k_iteration d) 0 >? 20) = false) by lia.
      rewrite Hle. cbn.
      destruct (Qlt_le_dec _ _) as [Hstale | Hfresh].
      * apply (older_than 2) in Hstale. rewrite Hstale. reflexivity.
      * apply (not_older_than 2) in Hfresh. rewrite Hfresh. reflexivity.
Qed.

Lemma watchdog_main_stop argv w r :
  (2 <= length argv)%nat ->
  fst (check_experiment E 24 w) = Ret (true, r) ->
  let w' := snd (watchdog_main E argv w) in
  fst (watchdog_main E argv w) = Ret tt /\
  fs w' !! report_file = Some (WatchdogReport r) /\
  trace w' = trace (snd (check_experiment E 24 w)) ++ [Write report_file (WatchdogReport r)].
Proof.
  intros Hargv Hstop. unfold watchdog_main.
  destruct (Nat.ltb_spec (length argv) 2) as [Hlt | _]; [lia |].
  unfold bind. destruct (check_experiment E 24 w) as [o w1]. simpl in Hstop.
  subst o. simpl. split; [reflexivity |]. split; [| reflexivity].
  apply lookup_insert_eq.
Qed.

Lemma check_experiment_returns w d :
  fs w !! status_file = Some (Json d) ->
  exists v, fst (check_experiment E 24 w) = Ret v.
Proof.
  intros Hfile. unfold check_experiment, bind.
  rewrite (path_exists_present _ _ _ Hfile). simpl.
  unfold json_load. rewrite Hfile. simpl.
  destruct (Qgtb _ _); [eexists; reflexivity |].
  destruct (_ >? 20); [eexists; reflexivity |]. cbn.
  destruct (Qgtb _ _); eexists; reflexivity.
Qed.

Lemma check_experiment_no_status w :
  fs w !! status_file = None ->
  check_experiment E 24 w = (Ret (false, NoStatusFile), w).
Proof.
  intros Hfile. unfold check_experiment, bind.
  rewrite (path_exists_absent _ _ Hfile). reflexivity.
Qed.

(** Whatever the verdict, the [__main__] block prints it first and runs
    to its end. *)
Lemma watchdog_main_returns argv w v :
  (2 <= length argv)%nat ->
  fst (check_experiment E 24 w) = Ret v ->
  fst (watchdog_main E argv w) = Ret tt /\
  exists rest,
    console (snd (watchdog_main E argv w)) =
    console (snd (check_experiment E 24 w)) ++ (None, WStatus (snd v)) :: rest.
Proof.
  intros Hargv Hv. unfold watchdog_main.
  destruct (Nat.ltb_spec (length argv) 2) as [Hlt | _]; [lia |].
  unfold bind. destruct (check_experiment E 24 w) as [o w1]. simpl in Hv.
  subst o. destruct v as [[|] r]; simpl.
  - split; [reflexivity |]. eexists. rewrite <- !app_assoc. reflexivity.
  - split; [reflexivity |]. exists []. reflexivity.
Qed.

(** C1. On a status document that stores a timestamp, [check_experiment]
    answers in this order: stop for the run time when the stamp is more
    than 24 hours behind the clock, else stop for the ceiling when the
    stored iteration exceeds 20, else stop for lack of progress when the
    stamp is more than 2 hours behind the clock, else do not stop.  And
    whenever it answers stop, the [__main__] block ends normally having
    written REPORT.md with the reason it was given. *)
Theorem watchdog_thresholds argv w :
  (2 <= length argv)%nat ->
  (forall d ts,
     fs w !! status_file = Some (Json d) ->
     k_timestamp d = Some ts ->
     fst (check_experiment E 24 w) =
       Ret (verdict (time_at E (S (clock_reads w)))
                    (time_at E (S (S (S (clock_reads w)))))
                    ts (dict_get (k_iteration d) 0))) /\
  (forall r,
     fst (check_experiment E 24 w) = Ret (true, r) ->
     fst (watchdog_main E argv w) = Ret tt /\
     fs (snd (watchdog_main E argv w)) !! report_file = Some (WatchdogReport r) /\
     In (Write report_file (WatchdogReport r)) (trace (snd (watchdog_main E argv w)))).
Proof.
  intros Hargv. split.
  - intros d ts. apply check_experiment_verdict.
  - intros r Hstop.
    destruct (watchdog_main_stop argv w r Hargv Hstop) as (Hret & Hfile & Htrace).
    repeat split; try assumption.
    rewrite Htrace. apply in_or_app. right. left. reflexivity.
Qed.

(** C9, as the program has it.  Given a directory argument, when
    status.json is absent or holds a JSON object with its keys at the
    types the runner writes ([Json d]: [timestamp] a number, [iteration]
    an integer, where they are present), the watchdog prints its status
    line and exits with code 0, also when it forces the stop; when
    status.json is absent it prints "No status file" and touches nothing
    else. *)
Theorem watchdog_exit_zero argv w :
  (2 <= length argv)%nat ->
  (fs w !! status_file = None \/ exists d, fs w !! status_file = Some (Json d)) ->
  exit_code (fst (watchdog_main E argv w)) = Some 0 /\
  (exists r rest,
     console (snd (watchdog_main E argv w)) = console w ++ (None, WStatus r) :: rest) /\
  (fs w !! status_file = None ->
     snd (watchdog_main E argv w) = add_console (None, WStatus NoStatusFile) w).
Proof.
  intros Hargv Hstatus.
  assert (Hconsole : console (snd (check_experiment E 24 w)) = console w).
  { unfold check_experiment, bind.
    destruct (fs w !! status_file) as [c |] eqn:Hfile.
    - rewrite (path_exists_present _ _ _ Hfile). simpl.
      unfold json_load. rewrite Hfile.
      destruct c as [text | d | r]; simpl; try reflexivity.
      destruct (Qgtb _ _); [reflexivity |].
      destruct (_ >? 20); [reflexivity |]. cbn.
      destruct (Qgtb _ _); reflexivity.
    - rewrite (path_exists_absent _ _ Hfile). reflexivity. }
  assert (Hv : exists v, fst (check_experiment E 24 w) = Ret v).
  { destruct Hstatus as [Hnone | [d Hd]].
    - rewrite (check_experiment_no_status _ Hnone). eexists; reflexivity.
    - apply (check_experiment_returns _ _ Hd). }
  destruct Hv as [v Hv].
  destruct (watchdog_main_returns argv w v Hargv Hv) as (Hret & rest & Hrest).
  split; [rewrite Hret; reflexivity |]. split.
  - exists (snd v), rest. rewrite Hrest, Hconsole. reflexivity.
  - intros Hnone. unfold watchdog_main.
    destruct (Nat.ltb_spec (length argv) 2) as [Hlt | _]; [lia |].
    unfold bind. rewrite (check_experiment_no_status _ Hnone). reflexivity.
Qed.

End Watchdog.

(** The three documents of the test plan, with the clock at 1000000:
    25 hours old at iteration 5, one hour old at iteration 21, fresh at
    iteration 3. *)
Lemma watchdog_thresholds_witness :
  let E := quiet_env 1000000 in
  let argv := ["watchdog.py"; "experiment"] in
  let old := world_of {[ status_file := status_doc 5 910000 false None ]} in
  let busy := world_of {[ status_file := status_doc 21 996400 false None ]} in
  let fresh := world_of {[ status_file := status_doc 3 1000000 false None ]} in
  (fst (check_experiment E 24 old) = Ret (true, RunningFor (hours (1000000 - 910000))) /\
   fs (snd (watchdog_main E argv old)) !! report_file =
     Some (WatchdogReport (RunningFor (hours (1000000 - 910000))))) /\
  (fst (check_experiment E 24 busy) = Ret (true, ExceededIterations) /\
   fs (snd (watchdog_main E argv busy)) !! report_file =
     Some (WatchdogReport ExceededIterations)) /\
  (exists h, fst (check_experiment E 24 fresh) = Ret (false, Progress 3 h)).
Proof.
  intros E argv old busy fresh.
  assert (Hargv : (2 <= length argv)%nat) by (simpl; lia).
  destruct (watchdog_thresholds E argv old Hargv) as [Hold Hold'].
  destruct (watchdog_thresholds E argv busy Hargv) as [Hbusy Hbusy'].
  destruct (watchdog_thresholds E argv fresh Hargv) as [Hfresh _].
  specialize (Hold _ 910000%Q eq_refl eq_refl).
  specialize (Hbusy _ 996400%Q eq_refl eq_refl).
  specialize (Hfresh _ 1000000%Q eq_refl eq_refl).
  assert (Hold1 : fst (check_experiment E 24 old) =
                  Ret (true, RunningFor (hours (1000000 - 910000)))).
  { rewrite Hold. vm_compute. reflexivity. }
  assert (Hbusy1 : fst (check_experiment E 24 busy) = Ret (true, ExceededIterations)).
  { rewrite Hbusy. vm_compute. reflexivity. }
  split; [| split].
  - split; [exact Hold1 |]. apply Hold'. exact Hold1.
  - split; [exact Hbusy1 |]. apply Hbusy'. exact Hbusy1.
  - eexists. rewrite Hfresh. vm_compute. reflexivity.
Defined.

Lemma watchdog_exit_zero_witness :
  let argv := ["watchdog.py"; "experiment"] in
  exit_code (fst (watchdog_main (quiet_env 1000000) argv (world_of ∅))) = Some 0 /\
  exit_code (fst (watchdog_main (quiet_env 1000000) argv
               (world_of {[ status_file := status_doc 5 910000 false None ]}))) = Some 0.
Proof.
  intros argv. split.
  - apply (watchdog_exit_zero (quiet_env 1000000) argv (world_of ∅)).
    + simpl. lia.
    + left. reflexivity.
  - apply (watchdog_exit_zero (quiet_env 1000000) argv
             (world_of {[ status_file := status_doc 5 910000 false None ]})).
    + simpl. lia.
    + right. eexists. reflexivity.
Defined.

(** C9 fails as written: the runner rewrites status.json in place, and a
    watchdog that reads the file while it is empty stops on the uncaught
    [JSONDecodeError]; the interpreter then exits with code 1 and no
    status line was printed. *)
Lemma watchdog_fails_on_unreadable_status :
  let argv := ["watchdog.py"; "experiment"] in
  let w := world_of {[ status_file := Text "" ]} in
  (2 <= length argv)%nat /\
  exit_code (fst (watchdog_main (quiet_env 1000000) argv w)) = Some 1 /\
  console (snd (watchdog_main (quiet_env 1000000) argv w)) = [].
Proof.
  simpl. split; [lia |]. split; reflexivity.
Qed.

(** ** Reasoning rules for the monad *)

Section Rules.

Context {S : Type}.

Lemma wpx_ret {A} (a : A) (Q : A -> S -> Prop) R s :
  Q a s -> wpx (ret a) Q R s.
Proof. exact (fun H => H). Qed.

Lemma wpx_raise {A} e (Q : A -> S -> Prop) (R : exn -> S -> Prop) s :
  R e s -> wpx (raise e) Q R s.
Proof. exact (fun H => H). Qed.

Lemma wpx_get (Q : S -> S -> Prop) R s :
  Q s s -> wpx get Q R s.
Proof. exact (fun H => H). Qed.

Lemma wpx_modify (f : S -> S) (Q : unit -> S -> Prop) R s :
  Q tt (f s) -> wpx (modify f) Q R s.
Proof. exact (fun H => H). Qed.

Lemma wpx_bind {A B} (m : M S A) (k : A -> M S B) Q R s :
  wpx m (fun a s' => wpx (k a) Q R s') R s -> wpx (bind m k) Q R s.
Proof.
  unfold wpx, bind. destruct (m s) as [[a | e |] s']; auto.
Qed.

Lemma wpx_try_except {A} (m : M S A) h Q R s :
  wpx m Q (fun e s' => match h e with
                       | Some k => wpx k Q R s'
                       | None => R e s'
                       end) s ->
  wpx (try_except m h) Q R s.
Proof.
  unfold wpx, try_except. destruct (m s) as [[a | e |] s']; auto.
  destruct (h e) as [k |]; auto.
Qed.

Lemma wpx_mono {A} (m : M S A) (Q Q' : A -> S -> Prop) (R R' : exn -> S -> Prop) s :
  wpx m Q R s ->
  (forall a s', Q a s' -> Q' a s') ->
  (forall e s', R e s' -> R' e s') ->
  wpx m Q' R' s.
Proof.
  unfold wpx. destruct (m s) as [[a | e |] s']; auto.
Qed.

(** Reading a [wpx] fact back as an equation. *)
Lemma wpx_returns {A} (m : M S A) (Q : A -> S -> Prop) s :
  wpx m Q (fun _ _ => False) s ->
  exists a, fst (m s) = Ret a /\ Q a (snd (m s)).
Proof.
  unfold wpx. destruct (m s) as [[a | e |] s']; simpl; [eauto | tauto | tauto].
Qed.

End Rules.

Lemma wpx_lift {A} (m : M world A) Q R s :
  wpx m (fun a w => Q a (State (self s) w)) (fun e w => R e (State (self s) w)) (outside s) ->
  wpx (lift m) Q R s.
Proof.
  unfold wpx, lift. destruct (m (outside s)) as [[a | e |] w]; auto.
Qed.

(** ** The primitives of the runner *)

Section Primitives.

Variable E : env.

Lemma wpx_log m (Q : unit -> state -> Prop) R r w :
  Q tt (State r (logged E m w)) -> wpx (log E m) Q R (State r w).
Proof. exact (fun H => H). Qed.

Lemma wpx_save_status (Q : unit -> state -> Prop) R r w :
  Q tt (State r (saved E r w)) -> wpx (save_status E) Q R (State r w).
Proof. exact (fun H => H). Qed.

Lemma wpx_set_iteration it (Q : unit -> state -> Prop) R r w :
  Q tt (State (Runner it (session_id r) (gpu_info r)) w) ->
  wpx (set_iteration it) Q R (State r w).
Proof. exact (fun H => H). Qed.

Lemma wpx_set_session_id sid (Q : unit -> state -> Prop) R r w :
  Q tt (State (Runner (iteration r) sid (gpu_info r)) w) ->
  wpx (set_session_id sid) Q R (State r w).
Proof. exact (fun H => H). Qed.

Lemma wpx_set_gpu_info info (Q : unit -> state -> Prop) R r w :
  Q tt (State (Runner (iteration r) (session_id r) (Some info)) w) ->
  wpx (set_gpu_info info) Q R (State r w).
Proof. exact (fun H => H). Qed.

Lemma wpx_path_exists p (Q : bool -> state -> Prop) R r w :
  Q (bool_decide (is_Some (fs w !! p))) (State r w) ->
  wpx (lift (path_exists p)) Q R (State r w).
Proof. exact (fun H => H). Qed.

Lemma wpx_sleep secs (Q : unit -> state -> Prop) R r w :
  Q tt (State r (add_event (Sleep secs) w)) ->
  wpx (lift (sleep secs)) Q R (State r w).
Proof. exact (fun H => H). Qed.

Lemma wpx_write_file p c (Q : unit -> state -> Prop) R r w :
  Q tt (State r (add_event (Write p c) (set_fs (<[p := c]> (fs w)) w))) ->
  wpx (lift (write_file p c)) Q R (State r w).
Proof. exact (fun H => H). Qed.

Lemma wpx_getitem {A} (field : option A) key (Q : A -> state -> Prop) R s :
  match field with
  | Some v => Q v s
  | None => R (Error KeyError ("'" +:+ key +:+ "'")) s
  end ->
  wpx (getitem field key) Q R s.
Proof. destruct field; exact (fun H => H). Qed.

Lemma wpx_json_loads stdout (Q : jdict -> state -> Prop) R s :
  match stdout with
  | Json d => Q d s
  | _ => R (Error JSONDecodeError "Expecting value") s
  end ->
  wpx (json_loads stdout) Q R s.
Proof. destruct stdout; exact (fun H => H). Qed.

Lemma wpx_json_load p (Q : jdict -> state -> Prop) R r w :
  match fs w !! p with
  | Some (Json d) => Q d (State r w)
  | Some _ => R (Error JSONDecodeError "Expecting value") (State r w)
  | None => R (Error FileNotFoundError p) (State r w)
  end ->
  wpx (lift (json_load p)) Q R (State r w).
Proof.
  unfold wpx, lift, json_load. simpl.
  destruct (fs w !! p) as [[| |] |]; exact (fun H => H).
Qed.

(** The world once the assistant has run. *)
Lemma wpx_run_claude_process cmd (Q : Z * content * string -> state -> Prop) R r w :
  (let w' := set_fs (snd (claude_cli E cmd w)) (add_event (Spawn cmd Captured (Some 600)) w) in
   match fst (claude_cli E cmd w) with
   | ClaudeExit returncode stdout stderr => Q (returncode, stdout, stderr) (State r w')
   | ClaudeTimeout => R (Error TimeoutExpired "timed out after 600 seconds") (State r w')
   | ClaudeRaises text => R (Error OtherError text) (State r w')
   end) ->
  wpx (lift (subprocess_run_claude E cmd)) Q R (State r w).
Proof.
  unfold wpx, lift, subprocess_run_claude. simpl.
  destruct (claude_cli E cmd w) as [[| |] files]; exact (fun H => H).
Qed.

Lemma wpx_run_script cmd out err (Q : Z -> state -> Prop) R r w :
  (let w1 := add_event (Write out (Text "")) (set_fs (<[out := Text ""]> (fs w)) w) in
   let w0 := add_event (Write err (Text "")) (set_fs (<[err := Text ""]> (fs w1)) w1) in
   let w' := set_fs (snd (python E cmd w0))
               (add_event (Spawn cmd (ToFiles out err) (Some 7200)) w0) in
   match fst (python E cmd w0) with
   | ScriptExit returncode => Q returncode (State r w')
   | ScriptTimeout => R (Error TimeoutExpired "timed out after 7200 seconds") (State r w')
   | ScriptRaises text => R (Error OtherError text) (State r w')
   end) ->
  wpx (lift (subprocess_run_script E cmd out err)) Q R (State r w).
Proof.
  unfold wpx, lift, subprocess_run_script, bind, write_file, modify.
  cbv zeta. cbn [outside fst snd].
  match goal with |- context [python E cmd ?w0] => destruct (python E cmd w0) as [[| |] files] end;
    exact (fun H => H).
Qed.

Lemma wpx_probe_torch (Q : option (string * string) -> state -> Prop) R s :
  match torch E (outside s) with
  | TorchCuda gpu_name gpu_mem => Q (Some (gpu_name, gpu_mem)) s
  | TorchNoCuda => Q None s
  | TorchImportError => R (Error ImportError "No module named 'torch'") s
  | TorchRaises text => R (Error OtherError text) s
  end ->
  wpx (probe_torch E) Q R s.
Proof.
  unfold wpx, probe_torch. destruct (torch E (outside s)); exact (fun H => H).
Qed.

Lemma find_script_eq scripts w :
  find_script scripts w =
  (Ret (List.find (fun p => bool_decide (is_Some (fs w !! p))) scripts), w).
Proof.
  induction scripts as [| p rest IH]; [reflexivity |].
  simpl. unfold bind. simpl.
  destruct (bool_decide (is_Some (fs w !! p))); [reflexivity | exact IH].
Qed.

Lemma wpx_find_script scripts (Q : option string -> state -> Prop) R r w :
  Q (List.find (fun p => bool_decide (is_Some (fs w !! p))) scripts) (State r w) ->
  wpx (lift (find_script scripts)) Q R (State r w).
Proof.
  unfold wpx, lift. rewrite find_script_eq. exact (fun H => H).
Qed.

End Primitives.

(** One step of symbolic execution. *)
Ltac wp_step :=
  lazymatch goal with
  | |- wpx (bind _ _) _ _ _ => apply wpx_bind
  | |- wpx (ret _) _ _ _ => apply wpx_ret
  | |- wpx (raise _) _ _ _ => apply wpx_raise
  | |- wpx get _ _ _ => apply wpx_get
  | |- wpx (try_except _ _) _ _ _ => apply wpx_try_except
  | |- wpx (log _ _) _ _ _ => apply wpx_log
  | |- wpx (save_status _) _ _ _ => apply wpx_save_status
  | |- wpx (set_iteration _) _ _ _ => apply wpx_set_iteration
  | |- wpx (set_session_id _) _ _ _ => apply wpx_set_session_id
  | |- wpx (set_gpu_info _) _ _ _ => apply wpx_set_gpu_info
  | |- wpx (lift (path_exists _)) _ _ _ => apply wpx_path_exists
  | |- wpx (lift (sleep _)) _ _ _ => apply wpx_sleep
  | |- wpx (lift (write_file _ _)) _ _ _ => apply wpx_write_file
  | |- wpx (lift (json_load _)) _ _ _ => apply wpx_json_load
  | |- wpx (lift (find_script _)) _ _ _ => apply wpx_find_script
  | |- wpx (lift (subprocess_run_claude _ _)) _ _ _ => apply wpx_run_claude_process; cbv zeta
  | |- wpx (lift (subprocess_run_script _ _ _ _)) _ _ _ => apply wpx_run_script; cbv zeta
  | |- wpx (getitem _ _) _ _ _ => apply wpx_getitem
  | |- wpx (json_loads _) _ _ _ => apply wpx_json_loads
  | |- wpx (probe_torch _) _ _ _ => apply wpx_probe_torch
  | |- wpx (if ?b then _ else _) _ _ _ => destruct b eqn:?
  | |- wpx (match ?x with _ => _ end) _ _ _ => destruct x eqn:?
  | |- wpx (let '(_, _) := ?x in _) _ _ _ => destruct x eqn:?
  | |- match ?x with _ => _ end => destruct x eqn:?
  end;
  cbv beta iota delta [run_claude_except except_Exception except_any].

(** ** What stays put within a pass *)

Lemma persisted_app tr1 tr2 : persisted (tr1 ++ tr2) = persisted tr1 ++ persisted tr2.
Proof. apply flat_map_app. Qed.

Lemma spawns_app tr1 tr2 : spawns (tr1 ++ tr2) = spawns tr1 ++ spawns tr2.
Proof. apply flat_map_app. Qed.

Lemma sleeps_app tr1 tr2 : sleeps (tr1 ++ tr2) = sleeps tr1 ++ sleeps tr2.
Proof. apply flat_map_app. Qed.

Section Passes.

Variable E : env.

Lemma same_pass_refl s : same_pass s s.
Proof.
  split; [reflexivity |]. exists []. split; [symmetry; apply app_nil_r | constructor].
Qed.

Lemma same_pass_step s r w r' w' evs :
  same_pass s (State r w) ->
  iteration r' = iteration r ->
  trace w' = trace w ++ evs ->
  Forall (fun v => v = iteration r) (persisted evs) ->
  same_pass s (State r' w').
Proof.
  intros [Hit (evs0 & Htr & Hall)] Hit' Htr' Hall'. simpl in *.
  split; [simpl; congruence |].
  exists (evs0 ++ evs). simpl. split.
  - rewrite Htr', Htr. symmetry. apply app_assoc.
  - rewrite persisted_app. apply Forall_app. split; [exact Hall |].
    rewrite <- Hit. exact Hall'.
Qed.

Lemma sp_logged s r w m :
  same_pass s (State r w) -> same_pass s (State r (logged E m w)).
Proof.
  intros H.
  apply (same_pass_step s r w r _ []); [exact H | reflexivity | | constructor].
  symmetry. apply app_nil_r.
Qed.

Lemma sp_saved s r w :
  same_pass s (State r w) -> same_pass s (State r (saved E r w)).
Proof.
  intros H.
  eapply (same_pass_step s r w r); [exact H | reflexivity | reflexivity |].
  repeat constructor.
Qed.

Lemma sp_sleep s r w secs :
  same_pass s (State r w) -> same_pass s (State r (add_event (Sleep secs) w)).
Proof.
  intros H.
  eapply (same_pass_step s r w r); [exact H | reflexivity | reflexivity |].
  constructor.
Qed.

Lemma sp_spawn s r w files cmd io timeout :
  same_pass s (State r w) ->
  same_pass s (State r (set_fs files (add_event (Spawn cmd io timeout) w))).
Proof.
  intros H.
  eapply (same_pass_step s r w r); [exact H | reflexivity | reflexivity |].
  constructor.
Qed.

Lemma sp_write s r w p c :
  String.eqb p status_file = false ->
  same_pass s (State r w) ->
  same_pass s (State r (add_event (Write p c) (set_fs (<[p := c]> (fs w)) w))).
Proof.
  intros Hp H.
  eapply (same_pass_step s r w r); [exact H | reflexivity | reflexivity |].
  unfold persisted. simpl. destruct c; simpl; try constructor.
  rewrite Hp. constructor.
Qed.

Lemma sp_self s r w sid gpu :
  same_pass s (State r w) ->
  same_pass s (State (Runner (iteration r) sid gpu) w).
Proof.
  intros H.
  apply (same_pass_step s r w _ _ []); [exact H | reflexivity | | constructor].
  symmetry. apply app_nil_r.
Qed.

Lemma same_pass_trans s1 s2 s3 :
  same_pass s1 s2 -> same_pass s2 s3 -> same_pass s1 s3.
Proof.
  intros H12 H23. destruct s3 as [r3 w3], s2 as [r2 w2].
  destruct H23 as [Hit (evs & Htr & Hall)]. simpl in *.
  eapply (same_pass_step s1 r2 w2); eauto.
Qed.

End Passes.

(** Discharges [same_pass s s'] when [s'] is [s] after logs, status
    writes, pauses, child processes and writes to the logs directory. *)
Ltac sp_step :=
  lazymatch goal with
  | |- same_pass ?s ?s => apply same_pass_refl
  | |- same_pass _ (State _ (logged _ _ _)) => apply sp_logged
  | |- same_pass _ (State _ (saved _ _ _)) => apply sp_saved
  | |- same_pass _ (State _ (add_event (Sleep _) _)) => apply sp_sleep
  | |- same_pass _ (State _ (set_fs _ (add_event (Spawn _ _ _) _))) => apply sp_spawn
  | |- same_pass _ (State _ (add_event (Write _ _) (set_fs _ _))) =>
      apply sp_write; [reflexivity |]
  | |- same_pass _ (State (Runner (iteration _) _ _) _) => apply sp_self
  | |- same_pass _ _ =>
      first [assumption | eapply same_pass_trans; [| eassumption]]
  end.

Ltac sp := repeat sp_step.

Ltac clarify :=
  repeat match goal with
         | H : _ /\ _ |- _ => destruct H
         | H : exists _, _ |- _ => destruct H
         | H : False |- _ => destruct H
         end;
  subst;
  cbv beta iota delta [run_claude_except except_Exception except_any].

(** Uses the specification [spec] of a method at a call of it. *)
Ltac wp_call spec :=
  eapply wpx_mono;
  [ apply spec
  | cbv beta; intros ? [? ?] ?; clarify
  | cbv beta; intros ? [? ?] ?; clarify ].

Section Training.

Variable E : env.

Lemma run_training_same_pass r w :
  wpx (run_training E) (fun _ s' => same_pass (State r w) s') (fun _ _ => False) (State r w).
Proof.
  unfold run_training.
  repeat wp_step; sp.
Qed.

(** C6. [run_training] takes the first of temp_check.py, train.py that
    exists.  With none it returns [(False, "No training script found")]
    and does nothing else, so the pass goes on.  Otherwise it opens the
    two capture files of the iteration, runs the script once in the
    experiment directory with a two hour limit and both streams going to
    those files, and returns: [(True, "Success")] exactly for exit code
    0, [(False, "Exit code N")] for another code, [(False, "Timeout")]
    when the limit expires. *)
Theorem run_training_contract r w :
  let s := State r w in
  let it := iteration r in
  match List.find (fun p => bool_decide (is_Some (fs w !! p))) train_scripts with
  | None => run_training E s = (Ret (false, "No training script found"), s)
  | Some script =>
      let cmd := [sys_executable E; script] in
      let result := fst (python E cmd (at_training_spawn E it script w)) in
      trace (outside (snd (run_training E s))) =
        trace w ++ [Write (stdout_file it) (Text "");
                    Write (stderr_file it) (Text "");
                    Spawn cmd (ToFiles (stdout_file it) (stderr_file it)) (Some 7200)] /\
      fst (run_training E s) = Ret (training_report result) /\
      (fst (training_report result) = true <-> result = ScriptExit 0)
  end.
Proof.
  cbv zeta. unfold run_training, bind, lift. rewrite find_script_eq.
  cbn [fst snd outside self].
  destruct (List.find _ train_scripts) as [script |] eqn:Hfind; [| reflexivity].
  assert (Htruthy : truthy (Some script) = true).
  { simpl in Hfind. repeat case_bool_decide; inversion Hfind; reflexivity. }
  rewrite Htruthy. cbn [negb dict_get].
  unfold try_except, bind, lift, subprocess_run_script, bind, write_file, modify, log, lift, get.
  cbn [fst snd outside self].
  change (log_w E (RunningScript script) w) with (Ret tt, logged E (RunningScript script) w).
  cbn [fst snd outside self].
  fold (at_training_spawn E (iteration r) script w).
  destruct (python E _ (at_training_spawn E (iteration r) script w))
    as [[returncode | | text] files] eqn:Hrun; cbn [fst snd].
  - destruct (returncode =? 0) eqn:Hcode; cbn.
    + apply Z.eqb_eq in Hcode. subst returncode.
      split; [rewrite <- !app_assoc; reflexivity |]. split; [reflexivity |]. tauto.
    + rewrite Hcode. split; [rewrite <- !app_assoc; reflexivity |].
      split; [reflexivity |]. split; [discriminate |].
      intros Heq. inversion Heq. subst. discriminate.
  - cbn. split; [rewrite <- !app_assoc; reflexivity |]. split; [reflexivity |].
    split; discriminate.
  - cbn. split; [rewrite <- !app_assoc; reflexivity |]. split; [reflexivity |].
    split; discriminate.
Qed.

End Training.

Section Assistant.

Variable E : env.
Variable cfg : config.

(** A successful exit may still end in a [KeyError], which the caller
    catches. *)
Lemma run_claude_parse_same_pass stdout r w :
  wpx (run_claude_parse E stdout)
    (fun _ s' => same_pass (State r w) s')
    (fun e s' => (exists text, e = Error KeyError text) /\ same_pass (State r w) s')
    (State r w).
Proof.
  unfold run_claude_parse, _log_claude_output.
  repeat wp_step;
    try lazymatch goal with
        | |- (exists _, _) /\ _ => split; [eexists; reflexivity |]
        end;
    sp.
Qed.

Lemma retry_fuel rc msg fuel :
  is_transient rc msg = true ->
  (Z.to_nat (2 - rc) < S fuel)%nat ->
  (Z.to_nat (2 - (rc + 1)) < fuel)%nat.
Proof.
  unfold is_transient. intros H Hfuel. apply andb_prop in H as [H _]. lia.
Qed.

Lemma run_claude_fuel_same_pass fuel : forall prompt rc r w,
  (Z.to_nat (2 - rc) < fuel)%nat ->
  wpx (run_claude_fuel E cfg fuel prompt rc)
    (fun _ s' => same_pass (State r w) s')
    (fun _ _ => False)
    (State r w).
Proof.
  induction fuel as [| fuel IH]; intros prompt rc r w Hfuel; [lia |].
  cbn [run_claude_fuel].
  repeat wp_step;
    try solve [sp];
    try lazymatch goal with
        | |- wpx (run_claude_parse _ _) _ _ _ =>
            wp_call run_claude_parse_same_pass
        | |- wpx (run_claude_fuel _ _ _ _ _) _ _ _ =>
            wp_call IH; [eapply retry_fuel; eassumption | ..]
        end;
    repeat wp_step; try solve [sp]; try tauto.
Qed.

Lemma run_claude_same_pass prompt rc r w :
  wpx (run_claude E cfg prompt rc)
    (fun _ s' => same_pass (State r w) s')
    (fun _ _ => False)
    (State r w).
Proof.
  apply run_claude_fuel_same_pass. lia.
Qed.

(** The resource check returns, or leaves through [sys.exit(1)] when
    torch is missing or raises. *)
Lemma _check_resources_same_pass r w :
  wpx (_check_resources E)
    (fun _ s' => same_pass (State r w) s')
    (fun e s' => e = SystemExit 1 /\ same_pass (State r w) s' /\ torch_fails E)
    (State r w).
Proof.
  unfold _check_resources.
  repeat wp_step; try solve [sp];
    (split; [reflexivity |]; split; [sp |]; exists w; cbn [outside] in *;
     match goal with H : torch E w = _ |- _ => rewrite H end; reflexivity).
Qed.

End Assistant.

Ltac wp_known :=
  first
    [ wp_call run_training_same_pass
    | wp_call run_claude_same_pass
    | wp_call _check_resources_same_pass ].

Ltac wp := repeat first [wp_step | wp_known].

Section Loop.

Variable E : env.
Variable cfg : config.

Lemma create_initial_plan_same_pass r w :
  wpx (create_initial_plan E cfg)
    (fun _ s' => same_pass (State r w) s')
    (fun e s' => e = SystemExit 1 /\ same_pass (State r w) s' /\ torch_fails E)
    (State r w).
Proof.
  unfold create_initial_plan.
  wp; try solve [sp]; try (split; [reflexivity |]; split; [sp | assumption]).
Qed.

Lemma next_pass_intro r w s' :
  same_pass (State (Runner (iteration r + 1) (session_id r) (gpu_info r)) w) s' ->
  next_pass (State r w) s'.
Proof. exact (fun H => H). Qed.

(** A pass moves the counter up by one, whatever the training script
    and the assistant do.  It answers [False] only when REPORT.md was
    there at its check; when it answers [True] its last act was to store
    the new counter and the session in status.json.  It can only be left
    through the [sys.exit(1)] of the resource check. *)
Lemma run_iteration_next_pass r w :
  wpx (run_iteration E cfg)
    (fun continue s' =>
       next_pass (State r w) s' /\
       if continue : bool
       then exists t c,
         fs (outside s') !! status_file =
           Some (status_doc (iteration r + 1) t c (session_id (self s')))
       else is_Some (fs w !! report_file))
    (fun e s' => e = SystemExit 1 /\ next_pass (State r w) s' /\ torch_fails E)
    (State r w).
Proof.
  unfold run_iteration.
  apply wpx_bind, wpx_get, wpx_bind, wpx_set_iteration. cbn [self iteration].
  set (s1 := State (Runner (iteration r + 1) (session_id r) (gpu_info r)) w).
  eapply wpx_mono
    with (Q := fun (continue : bool) s' =>
                 same_pass s1 s' /\
                 if continue
                 then exists t c,
                   fs (outside s') !! status_file =
                     Some (status_doc (iteration r + 1) t c (session_id (self s')))
                 else is_Some (fs w !! report_file))
         (R := fun e s' => e = SystemExit 1 /\ same_pass s1 s' /\ torch_fails E).
  - subst s1.
    wp; try (split; [reflexivity |]; split; [sp | assumption]);
      (split; [sp |]).
    1: { match goal with
         | H : bool_decide _ = true |- _ => apply bool_decide_eq_true_1 in H; exact H
         end. }
    all: match goal with
         | |- context [saved E ?r2 ?w2] =>
             assert (Hs : same_pass
                            (State (Runner (iteration r + 1) (session_id r) (gpu_info r)) w)
                            (State r2 w2)) by sp
         end;
         destruct Hs as [Hit _]; cbn [self iteration] in Hit;
         eexists _, _; unfold saved, status_doc; cbn [fs add_event set_fs outside self];
         rewrite lookup_insert_eq, Hit; reflexivity.
  - intros continue s' [H Hc]. split; [apply next_pass_intro, H | exact Hc].
  - intros e s' (He & H & Ht). split; [exact He |]. split; [apply next_pass_intro, H | exact Ht].
Qed.

Section Invariant.

(** Any property of states that survives the steps of a pass and the
    move to the next pass survives the loop and the whole run. *)
Variable I : state -> Prop.
Hypothesis I_same_pass : forall s s', I s -> same_pass s s' -> I s'.
Hypothesis I_next_pass : forall s s', I s -> next_pass s s' -> I s'.

Lemma main_loop_invariant fuel : forall r w,
  (Z.to_nat (max_iterations cfg - iteration r) < fuel)%nat ->
  I (State r w) ->
  wpx (main_loop E cfg fuel)
    (fun _ s' => I s')
    (fun e s' => e = SystemExit 1 /\ I s' /\ torch_fails E)
    (State r w).
Proof.
  induction fuel as [| fuel IH]; intros r w Hfuel HI; [lia |].
  cbn [main_loop].
  apply wpx_bind, wpx_get. cbn [self].
  destruct (iteration r <? max_iterations cfg) eqn:Hlt; [| exact HI].
  apply Z.ltb_lt in Hlt.
  apply wpx_bind.
  eapply wpx_mono; [apply run_iteration_next_pass | |].
  - intros continue [r' w'] [Hnext _]. cbv beta.
    assert (HI' : I (State r' w')) by (eapply I_next_pass; eauto).
    destruct continue; cbn [negb]; [| exact HI'].
    apply wpx_bind, wpx_sleep.
    apply IH.
    + destruct Hnext as [Hit _]. simpl in Hit. lia.
    + eapply I_same_pass; [exact HI' |]. sp.
  - intros e s' (He & Hnext & Ht). split; [exact He |]. split; [| exact Ht].
    eapply I_next_pass; eauto.
Qed.

Lemma run_invariant r w :
  I (State (loaded r w) (logged E StartingExperiment w)) ->
  wpx (run E cfg)
    (fun _ s' => I s')
    (fun e s' =>
       I s' /\
       (e = SystemExit 1 /\ torch_fails E \/
        e = Error JSONDecodeError "Expecting value" /\ ~ readable w))
    (State r w).
Proof.
  intros HI. unfold run, run_load_previous, loaded, readable in *.
  apply wpx_bind, wpx_log, wpx_bind.
  (* what follows the loading of the status *)
  match goal with
  | |- wpx _ ?K _ _ =>
      assert (Hrest : forall complete r1 w1, I (State r1 w1) -> K complete (State r1 w1))
  end.
  { intros complete r1 w1 HI1. cbv beta.
    destruct complete; [apply wpx_log; eapply I_same_pass; [exact HI1 | sp] |].
    apply wpx_bind, wpx_path_exists, wpx_bind.
    (* the loop and the final summary *)
    match goal with
    | |- wpx _ ?K _ _ =>
        assert (Hloop : forall proceed r2 w2, I (State r2 w2) -> K proceed (State r2 w2))
    end.
    { intros proceed r2 w2 HI2. cbv beta.
      destruct proceed; cbn [negb]; [| exact HI2].
      apply wpx_bind, wpx_try_except, wpx_bind, wpx_get.
      eapply wpx_mono.
      - apply (main_loop_invariant (loop_fuel cfg (State r2 w2)) r2 w2); [| exact HI2].
        unfold loop_fuel. cbn [self]. lia.
      - intros _ [r3 w3] HI3. cbv beta.
        apply wpx_bind, wpx_get, wpx_bind, wpx_log, wpx_bind, wpx_path_exists, wpx_bind.
        destruct (bool_decide _);
          apply wpx_log, wpx_save_status; (eapply I_same_pass; [exact HI3 | sp]).
      - intros e s3 (He & HI3 & Ht). subst e. cbn. split; [exact HI3 | left; tauto]. }
    destruct (bool_decide _); cbn [negb]; [apply wpx_ret, (Hloop true), HI1 |].
    apply wpx_bind, wpx_log, wpx_bind.
    eapply wpx_mono; [apply create_initial_plan_same_pass | |].
    - intros created [r2 w2] Hsame. cbv beta.
      assert (HI2 : I (State r2 w2)).
      { eapply I_same_pass; [exact HI1 |]. sp. }
      destruct created; cbn [negb].
      + apply wpx_bind, wpx_sleep, wpx_ret, (Hloop true).
        eapply I_same_pass; [exact HI2 | sp].
      + apply wpx_bind, wpx_log, wpx_ret, (Hloop false).
        eapply I_same_pass; [exact HI2 | sp].
    - intros e s2 (He & Hsame & Ht). split; [| left; tauto].
      eapply I_same_pass; [exact HI1 |]. sp. }
  apply wpx_bind, wpx_path_exists.
  change (fs (logged E StartingExperiment w)) with (fs w).
  destruct (fs w !! status_file) as [c |] eqn:Hstatus;
    cbn [bool_decide is_Some_dec decide_rel]; [| apply wpx_ret, (Hrest false), HI].
  apply wpx_bind, wpx_json_load.
  change (fs (logged E StartingExperiment w)) with (fs w). rewrite Hstatus.
  destruct c as [text | d | reason]; try (split; [exact HI | right; tauto]).
  apply wpx_bind, wpx_set_iteration, wpx_ret.
  apply (Hrest (dict_get (k_complete d) false)), HI.
Qed.

End Invariant.

End Loop.

(** ** The stored iteration never decreases *)

Lemma sorted_all_equal (b : Z) new :
  Forall (fun v => v = b) new -> StronglySorted Z.le (new ++ [b]).
Proof.
  induction 1 as [| x new Hx Hall IH]; simpl.
  - repeat constructor.
  - subst x. constructor; [exact IH |].
    apply Forall_app. split.
    + eapply Forall_impl; [exact Hall |]. intros v ->. lia.
    + repeat constructor. lia.
Qed.

Lemma sorted_extend (stored new : list Z) (a b : Z) :
  StronglySorted Z.le (stored ++ [a]) ->
  a <= b ->
  Forall (fun v => v = b) new ->
  StronglySorted Z.le (stored ++ new ++ [b]).
Proof.
  intros Hsorted Hab Hnew.
  induction stored as [| x stored IH]; simpl in *.
  - apply sorted_all_equal, Hnew.
  - apply StronglySorted_inv in Hsorted as [Hrest Hx].
    constructor; [apply IH, Hrest |].
    apply Forall_app in Hx as [Hx Ha].
    apply Forall_app. split; [exact Hx |].
    assert (Hxa : x <= a) by (inversion Ha; assumption).
    apply Forall_app. split.
    + eapply Forall_impl; [exact Hnew |]. intros v ->. lia.
    + repeat constructor. lia.
Qed.

Lemma monotone_same_pass s s' : monotone s -> same_pass s s' -> monotone s'.
Proof.
  unfold monotone. intros Hm [Hit (evs & Htr & Hall)].
  rewrite Htr, persisted_app, Hit, <- app_assoc.
  apply (sorted_extend _ _ (iteration (self s))); [exact Hm | lia | exact Hall].
Qed.

Lemma monotone_next_pass s s' : monotone s -> next_pass s s' -> monotone s'.
Proof.
  unfold monotone. intros Hm [Hit (evs & Htr & Hall)].
  rewrite Htr, persisted_app, Hit, <- app_assoc.
  apply (sorted_extend _ _ (iteration (self s))); [exact Hm | lia | exact Hall].
Qed.

Section Resume.

Variable E : env.
Variable cfg : config.

Lemma save_status_eq r w :
  save_status E (State r w) = (Ret tt, State r (saved E r w)).
Proof. reflexivity. Qed.

Lemma saved_lookup r w :
  fs (saved E r w) !! status_file =
  Some (status_doc (iteration r) (time_at E (clock_reads w))
          (bool_decide (is_Some (fs w !! report_file))) (session_id r)).
Proof.
  unfold saved, status_doc. cbn [fs add_event set_fs]. apply lookup_insert_eq.
Qed.

Lemma get_session_id_stored w it t c sid :
  fs w !! status_file = Some (status_doc it t c sid) ->
  get_session_id w = (Ret sid, w).
Proof.
  intros H. unfold get_session_id, bind, try_except.
  rewrite (path_exists_present _ _ _ H). unfold json_load. rewrite H. reflexivity.
Qed.

Lemma run_load_previous_stored r w it t c sid :
  fs w !! status_file = Some (status_doc it t c sid) ->
  run_load_previous (State r w) =
  (Ret c, State (Runner it (session_id r) (gpu_info r)) w).
Proof.
  intros H.
  unfold run_load_previous, bind, lift, path_exists, json_load.
  cbn [outside self]. rewrite H.
  change (bool_decide (is_Some (Some (status_doc it t c sid)))) with true.
  cbn [outside self]. rewrite H. reflexivity.
Qed.

Lemma init_stored w it t c sid :
  is_Some (fs w !! idea_file) ->
  fs w !! status_file = Some (status_doc it t c sid) ->
  init w = (Ret (Runner 0 sid None), w).
Proof.
  intros [idea Hidea] H. unfold init, mkdir, _validate_setup, bind.
  unfold ret at 1. rewrite (path_exists_present _ _ _ Hidea). cbn [negb].
  unfold ret at 1. rewrite (get_session_id_stored _ _ _ _ _ H). reflexivity.
Qed.

(** The outcome of [run] is never a lack of fuel, and [monotone] holds
    in the state it ends in, however it ends. *)
Lemma run_monotone r w :
  monotone (State (loaded r w) w) ->
  monotone (snd (run E cfg (State r w))).
Proof.
  intros Hm.
  assert (Hrun := run_invariant E cfg monotone monotone_same_pass monotone_next_pass r w).
  assert (Hpre : monotone (State (loaded r w) (logged E StartingExperiment w))).
  { eapply monotone_same_pass; [exact Hm |]. destruct (loaded r w). sp. }
  specialize (Hrun Hpre). unfold wpx in Hrun.
  destruct (run E cfg (State r w)) as [[[] | e |] s']; cbn [snd].
  - exact Hrun.
  - exact (proj1 Hrun).
  - destruct Hrun.
Qed.

(** X3. Round trip of the status document: what [save_status] wrote is
    what a new object reads back.  After [save_status], status.json holds
    the counter and the session of the object; a new [ExperimentRunner]
    on a directory with IDEA.md and such a document starts with the stored
    session (and counter 0), and the first block of [run] then sets the
    counter to the stored one and yields the stored [complete] flag. *)
Theorem status_round_trip r w r0 :
  is_Some (fs w !! idea_file) ->
  let w' := outside (snd (save_status E (State r w))) in
  (exists t c,
     fs w' !! status_file = Some (status_doc (iteration r) t c (session_id r)) /\
     run_load_previous (State r0 w') =
       (Ret c, State (Runner (iteration r) (session_id r0) (gpu_info r0)) w')) /\
  init w' = (Ret (Runner 0 (session_id r) None), w').
Proof.
  intros [idea Hidea] w'. subst w'. rewrite save_status_eq. cbn [snd outside].
  assert (Hidea' : is_Some (fs (saved E r w) !! idea_file)).
  { exists idea. unfold saved. cbn [fs add_event set_fs].
    rewrite lookup_insert_ne by discriminate. exact Hidea. }
  split.
  - eexists _, _. split; [apply saved_lookup |].
    eapply run_load_previous_stored, saved_lookup.
  - eapply init_stored; [exact Hidea' | apply saved_lookup].
Qed.

(** X4. One pass of the loop.  [run_iteration] either answers or leaves
    through [sys.exit(1)] (the resource check); it never raises an
    [Exception], whatever the training script and the assistant do.
    When it answers [True], the counter is one above where it was and
    status.json holds that value with the session of the object; it
    answers [False] only when REPORT.md existed at its check. *)
Theorem run_iteration_pass r w :
  let s' := snd (run_iteration E cfg (State r w)) in
  match fst (run_iteration E cfg (State r w)) with
  | Ret true =>
      iteration (self s') = iteration r + 1 /\
      exists t c,
        fs (outside s') !! status_file =
        Some (status_doc (iteration r + 1) t c (session_id (self s')))
  | Ret false => is_Some (fs w !! report_file) /\ iteration (self s') = iteration r + 1
  | Raise e => e = SystemExit 1 /\ torch_fails E
  | OutOfFuel => False
  end.
Proof.
  cbv zeta.
  assert (Hspec := run_iteration_next_pass E cfg r w). unfold wpx in Hspec.
  destruct (run_iteration E cfg (State r w)) as [[[|] | e |] s']; cbn [fst snd].
  - destruct Hspec as [[Hit _] Hdoc]. split; assumption.
  - destruct Hspec as [[Hit _] Hreport]. split; assumption.
  - tauto.
  - exact Hspec.
Qed.

(** X5. The iteration values written to status.json never decrease,
    within a run and from one run to the next: if the values written so
    far are in non-decreasing order and none is above the value [run]
    resumes from (the stored one, or the counter of the object when
    there is no readable status), then after [run], however it ends,
    all values written are in non-decreasing order. *)
Theorem persisted_never_decreases r w :
  StronglySorted Z.le (persisted (trace w) ++ [iteration (loaded r w)]) ->
  StronglySorted Z.le (persisted (trace (outside (snd (run E cfg (State r w)))))).
Proof.
  intros Hsorted.
  assert (Hm : monotone (snd (run E cfg (State r w)))) by (apply run_monotone, Hsorted).
  unfold monotone in Hm.
  induction (persisted (trace (outside (snd (run E cfg (State r w)))))) as [| x l IH].
  - constructor.
  - simpl in Hm. apply StronglySorted_inv in Hm as [Hl Hx].
    constructor; [apply IH, Hl |].
    apply Forall_app in Hx. tauto.
Qed.

End Resume.

(** ** The completion artifact stops the loop *)

Section Completion.

Variable E : env.
Variable cfg : config.

Lemma run_iteration_report_exists r w :
  is_Some (fs w !! report_file) ->
  run_iteration E cfg (State r w) =
  (Ret false,
   State (Runner (iteration r + 1) (session_id r) (gpu_info r))
     (logged E ReportExists
        (logged E (StartingIteration (iteration r + 1)) (logged E Banner w)))).
Proof.
  intros [c Hreport].
  unfold run_iteration, bind, get, set_iteration, modify, log, lift, path_exists.
  cbn [fst snd outside self iteration session_id gpu_info].
  change (log_w E Banner w) with (Ret tt, logged E Banner w).
  cbn [fst snd outside self iteration].
  change (log_w E (StartingIteration (iteration r + 1)) (logged E Banner w))
    with (Ret tt, logged E (StartingIteration (iteration r + 1)) (logged E Banner w)).
  cbn [fst snd outside self iteration].
  change (fs (logged E (StartingIteration (iteration r + 1)) (logged E Banner w)))
    with (fs w).
  rewrite Hreport. reflexivity.
Qed.

(** C2. When REPORT.md exists at the check of a pass, [run_iteration]
    answers [False] having only counted the pass and logged, and the
    loop of [run] ends there: no process was started, nothing was
    written and the loop did not pause. *)
Theorem report_stops_the_loop r w :
  is_Some (fs w !! report_file) ->
  (fst (run_iteration E cfg (State r w)) = Ret false /\
   trace (outside (snd (run_iteration E cfg (State r w)))) = trace w /\
   fs (outside (snd (run_iteration E cfg (State r w)))) = fs w) /\
  (forall fuel,
     iteration r < max_iterations cfg ->
     fst (main_loop E cfg (S fuel) (State r w)) = Ret tt /\
     spawns (trace (outside (snd (main_loop E cfg (S fuel) (State r w))))) =
       spawns (trace w) /\
     trace (outside (snd (main_loop E cfg (S fuel) (State r w)))) = trace w).
Proof.
  intros Hreport. split.
  - rewrite (run_iteration_report_exists r w Hreport).
    split; [reflexivity | split; reflexivity].
  - intros fuel Hlt.
    assert (Hloop : main_loop E cfg (S fuel) (State r w) =
                    (Ret tt, snd (run_iteration E cfg (State r w)))).
    { cbn [main_loop]. unfold bind at 1. unfold get at 1.
      cbn [self]. apply Z.ltb_lt in Hlt. rewrite Hlt.
      unfold bind at 1. rewrite (run_iteration_report_exists r w Hreport).
      reflexivity. }
    rewrite Hloop, (run_iteration_report_exists r w Hreport).
    split; [reflexivity | split; reflexivity].
Qed.

End Completion.

(** ** One invocation of the assistant *)

Section Invocation.

Variable E : env.
Variable cfg : config.

Lemma bind_get {A} (k : state -> M state A) s : bind get k s = k s s.
Proof. reflexivity. Qed.

Lemma bind_ret {A B} (a : A) (k : A -> M state B) s : bind (ret a) k s = k a s.
Proof. reflexivity. Qed.

Lemma bind_log {A} m (k : unit -> M state A) r w :
  bind (log E m) k (State r w) = k tt (State r (logged E m w)).
Proof. reflexivity. Qed.

Lemma try_if {A} (b : bool) (x y : M state A) h s :
  try_except (if b then x else y) h s =
  if b then try_except x h s else try_except y h s.
Proof. destruct b; reflexivity. Qed.

Lemma try_bind_log {A} m (k : unit -> M state A) h r w :
  try_except (bind (log E m) k) h (State r w) =
  try_except (k tt) h (State r (logged E m w)).
Proof. reflexivity. Qed.

Lemma try_bind_sleep {A} secs (k : unit -> M state A) h r w :
  try_except (bind (lift (sleep secs)) k) h (State r w) =
  try_except (k tt) h (State r (add_event (Sleep secs) w)).
Proof. reflexivity. Qed.

Lemma try_ret {A} (a : A) h (s : state) : try_except (ret a) h s = (Ret a, s).
Proof. reflexivity. Qed.

Lemma try_bind_spawn {A} cmd (k : Z * content * string -> M state A) h r w :
  try_except (bind (lift (subprocess_run_claude E cmd)) k) h (State r w) =
  match fst (claude_cli E cmd w) with
  | ClaudeExit returncode stdout stderr =>
      try_except (k (returncode, stdout, stderr)) h (State r (after_claude E cmd w))
  | ClaudeTimeout =>
      match h (Error TimeoutExpired "timed out after 600 seconds") with
      | Some handler => handler (State r (after_claude E cmd w))
      | None => (Raise (Error TimeoutExpired "timed out after 600 seconds"),
                 State r (after_claude E cmd w))
      end
  | ClaudeRaises text =>
      match h (Error OtherError text) with
      | Some handler => handler (State r (after_claude E cmd w))
      | None => (Raise (Error OtherError text), State r (after_claude E cmd w))
      end
  end.
Proof.
  unfold try_except, bind, lift, subprocess_run_claude, after_claude.
  cbn [outside self].
  destruct (claude_cli E cmd w) as [[returncode stdout stderr | | text] files];
    reflexivity.
Qed.

(** One level of [run_claude], by the way the assistant ends. *)
Lemma run_claude_fuel_unfold fuel prompt rc r w :
  run_claude_fuel E cfg (S fuel) prompt rc (State r w) =
  let cmd := build_cmd cfg (session_id r) prompt in
  let w0 := at_claude_spawn E r w in
  let w1 := after_claude E cmd w0 in
  match fst (claude_cli E cmd w0) with
  | ClaudeExit returncode stdout stderr =>
      if returncode =? 0 then
        try_except (run_claude_parse E stdout) (run_claude_except E prompt) (State r w1)
      else if is_transient rc (error_msg_of stderr) then
        try_except (run_claude_fuel E cfg fuel prompt (rc + 1))
          (run_claude_except E prompt) (State r (before_retry E stderr w1))
      else (Ret false, State r (logged E (ClaudeError (error_msg_of stderr)) w1))
  | ClaudeTimeout =>
      let w2 := logged E ClaudeTimedOut w1 in
      (Ret false,
       State r (add_event (Write (timeout_file (iteration r)) (Text prompt))
                  (set_fs (<[timeout_file (iteration r) := Text prompt]> (fs w2)) w2)))
  | ClaudeRaises text => (Ret false, State r (logged E (ClaudeError text) w1))
  end.
Proof.
  cbv zeta. cbn [run_claude_fuel]. rewrite bind_get. cbn [self].
  assert (Hannounce : forall (k : unit -> M state bool),
            bind (if truthy (session_id r)
                  then log E (ResumingSession (dict_get (session_id r) ""))
                  else ret tt)
              (fun _ => bind (log E (RunningClaude (iteration r))) k) (State r w) =
            k tt (State r (at_claude_spawn E r w))).
  { intros k. unfold at_claude_spawn. destruct (truthy (session_id r)); reflexivity. }
  rewrite Hannounce. rewrite try_bind_spawn.
  destruct (fst (claude_cli E _ (at_claude_spawn E r w)))
    as [returncode stdout stderr | | text]; [| reflexivity | reflexivity].
  rewrite try_if. destruct (returncode =? 0); [reflexivity |].
  rewrite try_bind_log, try_if.
  destruct (is_transient rc (error_msg_of stderr)); [| reflexivity].
  rewrite try_bind_log, try_bind_sleep. reflexivity.
Qed.

End Invocation.

(** ** What a method adds to the trace *)

Section Appends.

Variable E : env.
Variable P : event -> Prop.

Lemma appends_refl s : appends P s s.
Proof. exists []. split; [symmetry; apply app_nil_r | constructor]. Qed.

Lemma appends_step s r w r' w' evs :
  appends P s (State r w) ->
  trace w' = trace w ++ evs ->
  Forall P evs ->
  appends P s (State r' w').
Proof.
  intros (evs0 & Htr & Hall) Htr' Hall'. exists (evs0 ++ evs). simpl in *. split.
  - rewrite Htr', Htr. symmetry. apply app_assoc.
  - apply Forall_app. split; assumption.
Qed.

Lemma appends_trans s1 s2 s3 :
  appends P s1 s2 -> appends P s2 s3 -> appends P s1 s3.
Proof.
  intros H12 (evs & Htr & Hall). destruct s2 as [r2 w2], s3 as [r3 w3].
  eapply appends_step; eauto.
Qed.

Lemma ap_logged s r w m :
  appends P s (State r w) -> appends P s (State r (logged E m w)).
Proof.
  intros H. apply (appends_step s r w r _ []); [exact H | | constructor].
  symmetry. apply app_nil_r.
Qed.

Lemma ap_self s r w sid gpu :
  appends P s (State r w) -> appends P s (State (Runner (iteration r) sid gpu) w).
Proof.
  intros H. apply (appends_step s r w _ _ []); [exact H | | constructor].
  symmetry. apply app_nil_r.
Qed.

Lemma ap_saved s r w r' :
  P (Write status_file
       (Json (JDict (Some (iteration r')) (Some (time_at E (clock_reads w)))
                    (Some (bool_decide (is_Some (fs w !! report_file))))
                    (Some (session_id r')) None None None None))) ->
  appends P s (State r w) -> appends P s (State r (saved E r' w)).
Proof.
  intros HP H. eapply (appends_step s r w r); [exact H | reflexivity |].
  repeat constructor. exact HP.
Qed.

Lemma ap_write s r w p c :
  P (Write p c) ->
  appends P s (State r w) ->
  appends P s (State r (add_event (Write p c) (set_fs (<[p := c]> (fs w)) w))).
Proof.
  intros HP H. eapply (appends_step s r w r); [exact H | reflexivity |].
  repeat constructor. exact HP.
Qed.

Lemma ap_sleep s r w secs :
  P (Sleep secs) ->
  appends P s (State r w) -> appends P s (State r (add_event (Sleep secs) w)).
Proof.
  intros HP H. eapply (appends_step s r w r); [exact H | reflexivity |].
  repeat constructor. exact HP.
Qed.

Lemma ap_spawn s r w files cmd io timeout :
  P (Spawn cmd io timeout) ->
  appends P s (State r w) ->
  appends P s (State r (set_fs files (add_event (Spawn cmd io timeout) w))).
Proof.
  intros HP H. eapply (appends_step s r w r); [exact H | reflexivity |].
  repeat constructor. exact HP.
Qed.

End Appends.

(** Discharges [appends P s s'] when [s'] is [s] after logs and writes
    (the side conditions [P e] by computation). *)
Ltac ap_step :=
  lazymatch goal with
  | |- appends _ ?s ?s => apply appends_refl
  | |- appends _ _ (State _ (logged _ _ _)) => apply ap_logged
  | |- appends _ _ (State _ (saved _ _ _)) => apply ap_saved; [exact I |]
  | |- appends _ _ (State _ (add_event (Write _ _) (set_fs _ _))) =>
      apply ap_write; [exact I |]
  | |- appends _ _ (State (Runner (iteration _) _ _) _) => apply ap_self
  | |- appends _ _ _ =>
      first [assumption | eapply appends_trans; [| eassumption]]
  end.

Ltac ap := repeat ap_step.

Section Parse.

Variable E : env.
Variable cfg : config.

(** Reading the output of the assistant only writes files and logs; it
    ends normally or in a [KeyError]. *)
Lemma run_claude_parse_writes stdout r w :
  wpx (run_claude_parse E stdout)
    (fun _ s' => appends is_write (State r w) s')
    (fun e s' => (exists text, e = Error KeyError text) /\ appends is_write (State r w) s')
    (State r w).
Proof.
  unfold run_claude_parse, _log_claude_output.
  repeat wp_step;
    try lazymatch goal with
        | |- (exists _, _) /\ _ => split; [eexists; reflexivity |]
        end;
    ap.
Qed.

(** With the handlers of [run_claude] around it, it answers. *)
Lemma run_claude_parse_handled stdout prompt r w :
  exists b s',
    try_except (run_claude_parse E stdout) (run_claude_except E prompt) (State r w) =
      (Ret b, s') /\
    appends is_write (State r w) s' /\
    same_pass (State r w) s'.
Proof.
  assert (H1 := run_claude_parse_writes stdout r w).
  assert (H2 := run_claude_parse_same_pass E stdout r w).
  unfold wpx, try_except in *.
  destruct (run_claude_parse E stdout (State r w)) as [[b | e |] [r' w']].
  - eauto.
  - destruct H1 as [[text ->] H1], H2 as [_ H2].
    eexists _, _. split; [reflexivity |]. split; [ap | sp].
  - destruct H1.
Qed.

End Parse.

(** ** The attempts of one call of [run_claude] *)

Lemma writes_spawn_nothing evs : Forall is_write evs -> spawns evs = [].
Proof.
  induction 1 as [| e evs He _ IH]; [reflexivity |].
  destruct e; try destruct He. exact IH.
Qed.

Lemma writes_sleep_nothing evs : Forall is_write evs -> sleeps evs = [].
Proof.
  induction 1 as [| e evs He _ IH]; [reflexivity |].
  destruct e; try destruct He. exact IH.
Qed.

Lemma try_except_ret {S A} (m : M S A) h s a s' :
  m s = (Ret a, s') -> try_except m h s = (Ret a, s').
Proof. unfold try_except. intros ->. reflexivity. Qed.

Section Attempts.

Variable E : env.
Variable cfg : config.

Lemma trace_at_claude_spawn r w : trace (at_claude_spawn E r w) = trace w.
Proof. unfold at_claude_spawn. destruct (truthy (session_id r)); reflexivity. Qed.

Lemma trace_after_claude cmd w :
  trace (after_claude E cmd w) = trace w ++ [Spawn cmd Captured (Some 600)].
Proof. reflexivity. Qed.

(** A call of [run_claude] answers with a boolean.  On the way it
    starts the assistant [n] times with the command line built from the
    session it held at the call, pauses 30 seconds between two starts,
    and [n] is at least 1 and at most [3 - retry_count]. *)
Lemma run_claude_fuel_shape fuel : forall prompt rc r w,
  (Z.to_nat (2 - rc) < fuel)%nat ->
  exists b s' n rest,
    run_claude_fuel E cfg fuel prompt rc (State r w) = (Ret b, s') /\
    same_pass (State r w) s' /\
    trace (outside s') =
      trace w ++ Spawn (build_cmd cfg (session_id r) prompt) Captured (Some 600) :: rest /\
    spawns rest = repeat (build_cmd cfg (session_id r) prompt) n /\
    sleeps rest = repeat 30 n /\
    (n <= Z.to_nat (2 - rc))%nat.
Proof.
  induction fuel as [| fuel IH]; intros prompt rc r w Hfuel; [lia |].
  rewrite run_claude_fuel_unfold. cbv zeta.
  set (cmd := build_cmd cfg (session_id r) prompt).
  set (w0 := at_claude_spawn E r w).
  assert (Hw0 : same_pass (State r w) (State r w0)).
  { unfold w0, at_claude_spawn. destruct (truthy (session_id r)); sp. }
  assert (Hw1 : same_pass (State r w) (State r (after_claude E cmd w0))).
  { unfold after_claude. sp. }
  assert (Htr : trace (after_claude E cmd w0) = trace w ++ [Spawn cmd Captured (Some 600)]).
  { rewrite trace_after_claude. unfold w0. rewrite trace_at_claude_spawn. reflexivity. }
  destruct (fst (claude_cli E cmd w0)) as [returncode stdout stderr | | text].
  - destruct (returncode =? 0).
    + destruct (run_claude_parse_handled E stdout prompt r (after_claude E cmd w0))
        as (b & s' & Heq & (evs & Hevs & Hwrites) & Hsame).
      exists b, s', 0%nat, evs. rewrite Heq. split; [reflexivity |].
      split; [eapply same_pass_trans; eassumption |].
      split; [| split; [apply writes_spawn_nothing, Hwrites |
                        split; [apply writes_sleep_nothing, Hwrites | lia]]].
      rewrite Hevs. cbn [outside]. rewrite Htr, <- app_assoc. reflexivity.
    + destruct (is_transient rc (error_msg_of stderr)) eqn:Htransient.
      * assert (Hrc : rc < 2).
        { unfold is_transient in Htransient. apply andb_prop in Htransient as [H _]. lia. }
        destruct (IH prompt (rc + 1) r (before_retry E stderr (after_claude E cmd w0)))
          as (b & s' & n & rest & Heq & Hsame & Htrace & Hspawns & Hsleeps & Hn); [lia |].
        rewrite (try_except_ret _ _ _ _ _ Heq).
        exists b, s', (S n),
          (Sleep 30 :: Spawn (build_cmd cfg (session_id r) prompt) Captured (Some 600) :: rest).
        split; [reflexivity |].
        split; [eapply same_pass_trans; [| exact Hsame]; unfold before_retry; sp |].
        split; [| split; [| split]].
        -- rewrite Htrace. unfold before_retry. cbn [trace add_event logged add_log add_console tick].
           rewrite Htr, <- !app_assoc. reflexivity.
        -- cbn. unfold spawns in Hspawns. rewrite Hspawns. reflexivity.
        -- cbn. unfold sleeps in Hsleeps. rewrite Hsleeps. reflexivity.
        -- lia.
      * exists false, (State r (logged E (ClaudeError (error_msg_of stderr))
                                (after_claude E cmd w0))), 0%nat, [].
        split; [reflexivity |]. split; [sp |].
        split; [cbn [outside]; exact Htr |]. split; [reflexivity |]. split; [reflexivity | lia].
  - eexists false, _, 0%nat, [Write (timeout_file (iteration r)) (Text prompt)].
    split; [reflexivity |]. split; [sp |].
    split; [| split; [reflexivity | split; [reflexivity | lia]]].
    cbn [outside trace add_event set_fs logged add_log add_console tick].
    change (trace (after_claude E cmd w0)) with (trace w0 ++ [Spawn cmd Captured (Some 600)]).
    unfold w0. rewrite trace_at_claude_spawn, <- app_assoc. reflexivity.
  - exists false, (State r (logged E (ClaudeError text) (after_claude E cmd w0))), 0%nat, [].
    split; [reflexivity |]. split; [sp |].
    split; [cbn [outside]; exact Htr |]. split; [reflexivity |]. split; [reflexivity | lia].
Qed.

Lemma run_claude_shape prompt rc r w :
  exists b s' n rest,
    run_claude E cfg prompt rc (State r w) = (Ret b, s') /\
    same_pass (State r w) s' /\
    trace (outside s') =
      trace w ++ Spawn (build_cmd cfg (session_id r) prompt) Captured (Some 600) :: rest /\
    spawns rest = repeat (build_cmd cfg (session_id r) prompt) n /\
    sleeps rest = repeat 30 n /\
    (n <= Z.to_nat (2 - rc))%nat.
Proof. apply run_claude_fuel_shape. lia. Qed.

(** X6. A call of [run_claude] never raises: whatever the assistant does
    (non-zero exit, timeout, failure to start, output that is not JSON,
    a response without its accounting keys) the call answers with a
    boolean and leaves the iteration counter where it was.  It starts
    the assistant at least once and at most [3 - retry_count] times,
    each time with the command line built from the session held at the
    call, and sleeps 30 seconds before each start after the first. *)
Theorem run_claude_bounded_attempts prompt rc r w :
  exists b n rest,
    fst (run_claude E cfg prompt rc (State r w)) = Ret b /\
    iteration (self (snd (run_claude E cfg prompt rc (State r w)))) = iteration r /\
    trace (outside (snd (run_claude E cfg prompt rc (State r w)))) =
      trace w ++ Spawn (build_cmd cfg (session_id r) prompt) Captured (Some 600) :: rest /\
    spawns rest = repeat (build_cmd cfg (session_id r) prompt) n /\
    sleeps rest = repeat 30 n /\
    (n <= Z.to_nat (2 - rc))%nat.
Proof.
  destruct (run_claude_shape prompt rc r w)
    as (b & s' & n & rest & Heq & [Hit _] & Htrace & Hspawns & Hsleeps & Hn).
  exists b, n, rest. rewrite Heq. cbn [fst snd].
  split; [reflexivity |]. split; [exact Hit |]. split; [exact Htrace |].
  split; [exact Hspawns |]. split; [exact Hsleeps | exact Hn].
Qed.

(** X7. The retry of [run_claude]: when the assistant exits with a
    non-zero code, fewer than 2 retries were made and the first 200
    characters of its error text contain "rate limit" in any case, the
    call logs the error and the retry, sleeps 30 seconds and then
    behaves exactly as a call with the counter one higher. *)
Theorem run_claude_retry prompt rc r w returncode stdout stderr :
  let cmd := build_cmd cfg (session_id r) prompt in
  let w0 := at_claude_spawn E r w in
  fst (claude_cli E cmd w0) = ClaudeExit returncode stdout stderr ->
  returncode <> 0 ->
  rc < 2 ->
  contains "rate limit" (lower (error_msg_of stderr)) = true ->
  run_claude E cfg prompt rc (State r w) =
  run_claude E cfg prompt (rc + 1)
    (State r (before_retry E stderr (after_claude E cmd w0))).
Proof.
  intros cmd w0 Hexit Hcode Hrc Hmatch. unfold run_claude.
  rewrite run_claude_fuel_unfold. cbv zeta. fold cmd w0. rewrite Hexit.
  apply Z.eqb_neq in Hcode. rewrite Hcode.
  unfold is_transient. rewrite Hmatch. apply Z.ltb_lt in Hrc. rewrite Hrc.
  cbn [andb]. apply Z.ltb_lt in Hrc.
  replace (Z.to_nat (2 - rc)) with (S (Z.to_nat (2 - (rc + 1)))) by lia.
  destruct (run_claude_shape prompt (rc + 1) r (before_retry E stderr (after_claude E cmd w0)))
    as (b & s' & _ & _ & Heq & _).
  unfold run_claude in Heq. rewrite Heq. apply try_except_ret, Heq.
Qed.

(** X8. No retry without the signature or beyond the budget: when the
    assistant exits with a non-zero code and either 2 retries were
    already made or the truncated error text does not contain "rate
    limit", the call logs the error and answers [False]; the assistant
    was started once and there was no pause. *)
Theorem run_claude_gives_up prompt rc r w returncode stdout stderr :
  let cmd := build_cmd cfg (session_id r) prompt in
  let w0 := at_claude_spawn E r w in
  fst (claude_cli E cmd w0) = ClaudeExit returncode stdout stderr ->
  returncode <> 0 ->
  2 <= rc \/ contains "rate limit" (lower (error_msg_of stderr)) = false ->
  run_claude E cfg prompt rc (State r w) =
  (Ret false,
   State r (logged E (ClaudeError (error_msg_of stderr)) (after_claude E cmd w0))).
Proof.
  intros cmd w0 Hexit Hcode Hstop. unfold run_claude.
  rewrite run_claude_fuel_unfold. cbv zeta. fold cmd w0. rewrite Hexit.
  apply Z.eqb_neq in Hcode. rewrite Hcode.
  assert (Hnot : is_transient rc (error_msg_of stderr) = false).
  { unfold is_transient. destruct Hstop as [Hrc | Hmatch].
    - apply Z.ltb_ge in Hrc. rewrite Hrc. reflexivity.
    - rewrite Hmatch. apply andb_false_r. }
  rewrite Hnot. reflexivity.
Qed.

Lemma json_file_not_status it : json_file it <> status_file.
Proof. unfold json_file, status_file. simpl. discriminate. Qed.

(** A response that carries [session_id]: the session is adopted and
    stored before anything else, whether or not the accounting keys are
    there. *)
Lemma run_claude_parse_adopts d sid prompt r w :
  k_session_id d = Some sid ->
  wpx (try_except (run_claude_parse E (Json d)) (run_claude_except E prompt))
    (fun b s' =>
       b = accounted d /\
       session_id (self s') = sid /\
       fs (outside s') !! status_file =
         Some (status_doc (iteration r) (time_at E (clock_reads w))
                 (bool_decide (is_Some (fs w !! report_file))) sid) /\
       exists rest,
         trace (outside s') =
         trace w ++
         Write status_file
           (status_doc (iteration r) (time_at E (clock_reads w))
              (bool_decide (is_Some (fs w !! report_file))) sid) :: rest)
    (fun _ _ => False)
    (State r w).
Proof.
  intros Hsid. unfold run_claude_parse, _log_claude_output.
  apply wpx_try_except, wpx_try_except, wpx_bind, wpx_json_loads.
  apply wpx_bind. rewrite Hsid.
  repeat wp_step;
    (split;
     [ unfold accounted;
       repeat match goal with
              | H : k_cost_usd d = _ |- _ => rewrite H
              | H : k_total_cost d = _ |- _ => rewrite H
              | H : k_num_turns d = _ |- _ => rewrite H
              end; reflexivity
     | split; [reflexivity |]; split;
       [ cbn [outside self fs logged add_log add_console tick add_event set_fs saved
                iteration session_id];
         rewrite lookup_insert_ne by apply json_file_not_status;
         apply lookup_insert_eq
       | eexists;
         cbn [outside self trace logged add_log add_console tick add_event set_fs saved
                iteration session_id];
         rewrite <- ?app_assoc; reflexivity ] ]).
Qed.

(** C10. A response that parses and carries a session identifier but
    lacks one of [cost_usd], [total_cost], [num_turns]: [run_claude]
    answers [False], yet the identifier is already the session of the
    object and status.json already holds it. *)
Theorem run_claude_adopts_before_failing prompt rc r w d sid stderr :
  let cmd := build_cmd cfg (session_id r) prompt in
  let w0 := at_claude_spawn E r w in
  fst (claude_cli E cmd w0) = ClaudeExit 0 (Json d) stderr ->
  k_session_id d = Some sid ->
  accounted d = false ->
  let s' := snd (run_claude E cfg prompt rc (State r w)) in
  fst (run_claude E cfg prompt rc (State r w)) = Ret false /\
  session_id (self s') = sid /\
  exists t c,
    fs (outside s') !! status_file = Some (status_doc (iteration r) t c sid) /\
    In (Write status_file (status_doc (iteration r) t c sid)) (trace (outside s')).
Proof.
  intros cmd w0 Hexit Hsid Hkeys s'. subst s'. unfold run_claude.
  rewrite run_claude_fuel_unfold. cbv zeta. fold cmd w0. rewrite Hexit.
  cbn [Z.eqb].
  assert (H := run_claude_parse_adopts d sid prompt r (after_claude E cmd w0) Hsid).
  unfold wpx in H.
  destruct (try_except _ _ _) as [[b | e |] s']; [| destruct H | destruct H].
  destruct H as (Hb & Hs & Hfs & rest & Htrace). cbn [fst snd].
  split; [congruence |]. split; [exact Hs |].
  eexists _, _. split; [exact Hfs |].
  rewrite Htrace. apply in_or_app. right. left. reflexivity.
Qed.

(** X10. Every start of the assistant by [run_claude] uses the session
    the object holds: the first thing a call does to the outside is to
    start the command line [build_cmd], which carries [--resume sid]
    right before [-p prompt] when the session is a non-empty string
    [sid], and no [--resume] at all when the session is [None] or the
    empty string. *)
Theorem run_claude_resume_directive prompt rc r w :
  (exists rest,
     trace (outside (snd (run_claude E cfg prompt rc (State r w)))) =
     trace w ++ Spawn (build_cmd cfg (session_id r) prompt) Captured (Some 600) :: rest) /\
  (forall sid,
     session_id r = Some sid -> sid <> "" ->
     build_cmd cfg (session_id r) prompt =
     ["claude"; "--output-format"; "json"; "--allowedTools"; allowed_tools cfg;
      "--resume"; sid; "-p"; prompt]) /\
  (session_id r = None \/ session_id r = Some "" ->
     build_cmd cfg (session_id r) prompt =
     ["claude"; "--output-format"; "json"; "--allowedTools"; allowed_tools cfg;
      "-p"; prompt]).
Proof.
  split; [| split].
  - destruct (run_claude_shape prompt rc r w) as (b & s' & n & rest & Heq & _ & Htrace & _).
    exists rest. rewrite Heq. exact Htrace.
  - intros sid Hsid Hne. rewrite Hsid. unfold build_cmd, truthy.
    destruct (String.eqb_spec sid ""); [contradiction | reflexivity].
  - intros [Hsid | Hsid]; rewrite Hsid; reflexivity.
Qed.

End Attempts.

(** ** Startup *)

Section Startup.

Variable E : env.
Variable cfg : config.

(** X11. [get_session_id] never raises and changes nothing: it yields
    the stored session when status.json is a JSON document with a
    non-null [session_id], and [None] when the file is absent, when the
    key is absent or null, and also, without a word on the console or in
    the log, when the file cannot be parsed. *)
Theorem get_session_id_silent w :
  get_session_id w =
  (Ret match fs w !! status_file with
       | Some (Json d) => dict_get (k_session_id d) None
       | _ => None
       end, w).
Proof.
  unfold get_session_id, bind, try_except, path_exists, json_load.
  destruct (fs w !! status_file) as [c |] eqn:Hstatus; [| reflexivity].
  change (bool_decide (is_Some (Some c))) with true. cbv beta iota.
  rewrite Hstatus. destruct c; reflexivity.
Qed.

(** X12. When status.json is absent, holds a JSON object (with its keys
    at the types of [jdict]) or is rejected by [json.load]
    ([status_covered]),
    [save_session_id] rewrites status.json with the session set and
    every other key of the object kept; an absent or rejected file is
    replaced by an object that holds the session only.  No other file
    changes, and [get_session_id] then returns the session that was
    saved.  (JSON that [json.load] accepts and that is not an object is
    outside this statement: the assignment of the key would raise
    [TypeError].) *)
Theorem save_session_id_round_trip sid w :
  status_covered w ->
  let w' := snd (save_session_id sid w) in
  let old := match fs w !! status_file with
             | Some (Json d) => d
             | _ => empty_dict
             end in
  fst (save_session_id sid w) = Ret tt /\
  fs w' !! status_file =
    Some (Json (JDict (k_iteration old) (k_timestamp old) (k_complete old)
                      (Some (Some sid)) (k_result old) (k_cost_usd old)
                      (k_total_cost old) (k_num_turns old))) /\
  (forall p, p <> status_file -> fs w' !! p = fs w !! p) /\
  get_session_id w' = (Ret (Some sid), w').
Proof.
  intros _. cbv zeta.
  assert (Heq : save_session_id sid w =
                let old := match fs w !! status_file with
                           | Some (Json d) => d
                           | _ => empty_dict
                           end in
                let doc := Json (JDict (k_iteration old) (k_timestamp old) (k_complete old)
                                       (Some (Some sid)) (k_result old) (k_cost_usd old)
                                       (k_total_cost old) (k_num_turns old)) in
                (Ret tt, add_event (Write status_file doc)
                           (set_fs (<[status_file := doc]> (fs w)) w))).
  { unfold save_session_id, bind, try_except, path_exists, json_load.
    destruct (fs w !! status_file) as [c |] eqn:Hstatus; [| reflexivity].
    change (bool_decide (is_Some (Some c))) with true. cbv beta iota.
    rewrite Hstatus. destruct c; reflexivity. }
  rewrite Heq. cbv zeta. cbn [fst snd].
  split; [reflexivity |]. split; [apply lookup_insert_eq |]. split.
  - intros p Hp. cbn [fs add_event set_fs]. apply lookup_insert_ne. congruence.
  - rewrite get_session_id_silent. cbn [fs add_event set_fs].
    rewrite lookup_insert_eq. reflexivity.
Qed.

(** X13. The two fatal checks of startup.  When [claude --version]
    cannot be run or fails, [main] prints its two lines and leaves with
    [sys.exit(1)] before an object is built; when the tool is there and
    [logs/] can be created in the experiment directory but IDEA.md is
    not in it, the constructor creates [logs/], prints its two lines and
    leaves with [sys.exit(1)].  In both cases nothing is logged and no
    file is written. *)
Theorem main_startup_failures w :
  let probed := add_event (Spawn ["claude"; "--version"] Captured None) w in
  (claude_version E w = VersionFileNotFound \/
   claude_version E w = VersionCalledProcessError ->
   main E cfg w =
   (Raise (SystemExit 1),
    add_console (None, PleaseInstall) (add_console (None, CliNotFound) probed))) /\
  (claude_version E w = VersionOk ->
   logs_dir_creatable w ->
   fs w !! idea_file = None ->
   main E cfg w =
   (Raise (SystemExit 1),
    add_console (None, PleaseCreateIdea) (add_console (None, IdeaNotFound) probed))).
Proof.
  cbv zeta. split.
  - intros Hprobe. unfold main, bind, try_except, subprocess_run_version.
    destruct Hprobe as [-> | ->]; reflexivity.
  - intros Hprobe _ Hidea.
    unfold main, bind, try_except, subprocess_run_version, init, mkdir, _validate_setup,
      bind, path_exists.
    rewrite Hprobe. unfold ret at 1. cbn [fs add_event]. rewrite Hidea. reflexivity.
Qed.

End Startup.

(** ** The whole run *)

Section WholeRun.

Variable E : env.
Variable cfg : config.

Lemma init_present w :
  is_Some (fs w !! idea_file) ->
  init w =
  (Ret (Runner 0 match fs w !! status_file with
                 | Some (Json d) => dict_get (k_session_id d) None
                 | _ => None
                 end None), w).
Proof.
  intros [idea Hidea]. unfold init, mkdir, _validate_setup, bind.
  unfold ret at 1. rewrite (path_exists_present _ _ _ Hidea). cbn [negb].
  unfold ret at 1. rewrite get_session_id_silent. reflexivity.
Qed.

Lemma main_after_startup w :
  claude_version E w = VersionOk ->
  is_Some (fs w !! idea_file) ->
  exists r,
    main E cfg w =
    with_self r (run E cfg) (add_event (Spawn ["claude"; "--version"] Captured None) w) /\
    iteration r = 0 /\ gpu_info r = None.
Proof.
  intros Hprobe Hidea. eexists. split.
  - unfold main, bind, try_except, subprocess_run_version. rewrite Hprobe.
    rewrite init_present by exact Hidea. reflexivity.
  - split; reflexivity.
Qed.

Lemma run_load_previous_json r w d :
  fs w !! status_file = Some (Json d) ->
  run_load_previous (State r w) =
  (Ret (dict_get (k_complete d) false),
   State (Runner (dict_get (k_iteration d) 0) (session_id r) (gpu_info r)) w).
Proof.
  intros H.
  unfold run_load_previous, bind, lift, path_exists, json_load.
  cbn [outside self]. rewrite H.
  change (bool_decide (is_Some (Some (Json d)))) with true.
  cbn [outside self]. rewrite H. reflexivity.
Qed.

Lemma run_load_previous_absent r w :
  fs w !! status_file = None ->
  run_load_previous (State r w) = (Ret false, State r w).
Proof.
  intros H. unfold run_load_previous, bind, lift, path_exists.
  cbn [outside self]. rewrite H. reflexivity.
Qed.


(** X15. A status document that says [complete] ends [run] at once: the
    counter is loaded, two lines are logged, and nothing else happens
    (no plan, no pass, no process, no write, not even the final
    [save_status]). *)
Theorem run_already_complete r w d :
  fs w !! status_file = Some (Json d) ->
  k_complete d = Some true ->
  run E cfg (State r w) =
  (Ret tt,
   State (Runner (dict_get (k_iteration d) 0) (session_id r) (gpu_info r))
     (logged E AlreadyComplete (logged E StartingExperiment w))).
Proof.
  intros Hstatus Hcomplete. unfold run. rewrite bind_log. unfold bind at 1.
  rewrite (run_load_previous_json r (logged E StartingExperiment w) d Hstatus).
  rewrite Hcomplete. reflexivity.
Qed.

(** X16. A failed planning ends [run] before the loop: when there is
    no status and no PLAN.md and [create_initial_plan] answers [False],
    [run] logs "Failed to create plan - exiting" and returns; no pass is
    made and the final [save_status] is skipped. *)
Theorem run_plan_failure r w :
  fs w !! status_file = None ->
  fs w !! plan_file = None ->
  let s1 := State r (logged E CreatingPlan (logged E StartingExperiment w)) in
  let s2 := snd (create_initial_plan E cfg s1) in
  fst (create_initial_plan E cfg s1) = Ret false ->
  run E cfg (State r w) =
  (Ret tt, State (self s2) (logged E PlanFailed (outside s2))).
Proof.
  intros Hstatus Hplan s1 s2 Hfailed. unfold run. rewrite bind_log. unfold bind at 1.
  rewrite (run_load_previous_absent r (logged E StartingExperiment w) Hstatus).
  unfold bind at 1. unfold lift at 1, path_exists at 1. cbn [outside self fst snd].
  change (fs (logged E StartingExperiment w)) with (fs w). rewrite Hplan.
  change (bool_decide (is_Some None)) with false. cbn [negb].
  unfold bind at 1. rewrite bind_log. unfold bind at 1. fold s1.
  subst s2. destruct (create_initial_plan E cfg s1) as [o [r2 w2]].
  cbn [fst snd] in *. subst o. reflexivity.
Qed.

(** The pass counter never leaves the budget. *)
Lemma main_loop_budget fuel : forall r w,
  (Z.to_nat (max_iterations cfg - iteration r) < fuel)%nat ->
  wpx (main_loop E cfg fuel)
    (fun _ s' =>
       iteration r <= iteration (self s') <= Z.max (iteration r) (max_iterations cfg))
    (fun e s' =>
       e = SystemExit 1 /\
       iteration r <= iteration (self s') <= Z.max (iteration r) (max_iterations cfg))
    (State r w).
Proof.
  induction fuel as [| fuel IH]; intros r w Hfuel; [lia |].
  cbn [main_loop].
  apply wpx_bind, wpx_get. cbn [self].
  destruct (iteration r <? max_iterations cfg) eqn:Hlt; [| apply wpx_ret; cbn; lia].
  apply Z.ltb_lt in Hlt.
  apply wpx_bind.
  eapply wpx_mono; [apply run_iteration_next_pass | |].
  - intros continue [r' w'] [[Hit _] _]. cbv beta. cbn [self] in Hit.
    destruct continue; cbn [negb]; [| apply wpx_ret; cbn; lia].
    apply wpx_bind, wpx_sleep.
    eapply wpx_mono; [apply IH; lia | |].
    + intros u s' H. cbv beta in *. cbn [self iteration] in *. lia.
    + intros e s' [He H]. cbn [self iteration] in *. split; [exact He | lia].
  - intros e [r' w'] (He & [Hit _] & _). cbn [self] in *. split; [exact He | lia].
Qed.

(** X17. The loop of [run] ends within its budget: started with the
    fuel [run] gives it, it never runs out of it, the counter only goes
    up, and it ends at most at [max_iterations] (or where it started,
    when that was already beyond). *)
Theorem loop_within_budget r w :
  let res := main_loop E cfg (loop_fuel cfg (State r w)) (State r w) in
  fst res <> OutOfFuel /\
  iteration r <= iteration (self (snd res)) <= Z.max (iteration r) (max_iterations cfg).
Proof.
  cbv zeta.
  assert (H := main_loop_budget (loop_fuel cfg (State r w)) r w).
  assert (Hfuel : (Z.to_nat (max_iterations cfg - iteration r) <
                   loop_fuel cfg (State r w))%nat).
  { unfold loop_fuel. cbn [self]. lia. }
  specialize (H Hfuel). unfold wpx in H.
  destruct (main_loop E cfg _ _) as [[u | e |] s']; cbn [fst snd].
  - split; [discriminate | exact H].
  - split; [discriminate | apply H].
  - destruct H.
Qed.

End WholeRun.

(** ** The resource check is fatal *)

Section ResourceCheck.

Variable E : env.
Variable cfg : config.

Hypothesis torch_unusable : forall w, torch_ok (torch E w) = false.

Lemma run_training_self r w :
  wpx (run_training E) (fun _ s' => self s' = r) (fun _ _ => False) (State r w).
Proof.
  unfold run_training. repeat wp_step; reflexivity.
Qed.

Lemma _check_resources_exits r w :
  wpx (_check_resources E) (fun _ _ => False) (fun e _ => e = SystemExit 1) (State r w).
Proof.
  unfold _check_resources.
  assert (Ht := torch_unusable w).
  repeat wp_step; try reflexivity;
    cbn [outside] in *;
    match goal with H : torch E w = _ |- _ => rewrite H in Ht; discriminate end.
Qed.

Lemma first_pass_exits sid w :
  fs w !! report_file = None ->
  wpx (run_iteration E cfg) (fun _ _ => False) (fun e _ => e = SystemExit 1)
    (State (Runner 0 sid None) w).
Proof.
  intros Hreport. unfold run_iteration.
  apply wpx_bind, wpx_get, wpx_bind, wpx_set_iteration, wpx_bind, wpx_log.
  apply wpx_bind, wpx_get, wpx_bind, wpx_log, wpx_bind, wpx_path_exists.
  cbn [fs logged add_log add_console tick self iteration session_id gpu_info outside].
  rewrite Hreport. change (bool_decide (is_Some None)) with false.
  apply wpx_bind.
  eapply wpx_mono; [apply run_training_self | | intros e s' []].
  intros [success error] [r' w'] Hself. cbn [self] in Hself. subst r'. cbv beta iota.
  change (0 + 1 =? 1) with true. cbv iota.
  apply wpx_bind, wpx_bind, wpx_get. cbn [self gpu_info].
  apply wpx_bind.
  eapply wpx_mono; [apply _check_resources_exits | intros u s' [] | intros e s' He; exact He].
Qed.

Lemma run_exits sid w :
  fs w !! status_file = None ->
  fs w !! report_file = None ->
  0 < max_iterations cfg ->
  wpx (run E cfg) (fun _ _ => False) (fun e _ => e = SystemExit 1)
    (State (Runner 0 sid None) w).
Proof.
  intros Hstatus Hreport Hmax. unfold run, run_load_previous.
  apply wpx_bind, wpx_log, wpx_bind, wpx_bind, wpx_path_exists.
  cbn [fs logged add_log add_console tick]. rewrite Hstatus.
  change (bool_decide (is_Some None)) with false.
  apply wpx_ret, wpx_bind, wpx_path_exists, wpx_bind.
  destruct (bool_decide _); cbn [negb].
  - apply wpx_ret. cbn [negb].
    apply wpx_bind, wpx_try_except, wpx_bind, wpx_get.
    unfold loop_fuel. cbn [self iteration main_loop].
    apply wpx_bind, wpx_get. cbn [self iteration].
    apply Z.ltb_lt in Hmax. rewrite Hmax.
    apply wpx_bind.
    eapply wpx_mono; [apply first_pass_exits | intros b s' [] |].
    + cbn [fs logged add_log add_console tick]. exact Hreport.
    + intros e s' ->. reflexivity.
  - apply wpx_bind, wpx_log, wpx_bind. unfold create_initial_plan.
    apply wpx_bind, wpx_path_exists.
    destruct (bool_decide _).
    + apply wpx_bind, wpx_log, wpx_ret. cbn [negb].
      apply wpx_bind, wpx_sleep, wpx_ret. cbn [negb].
      apply wpx_bind, wpx_try_except, wpx_bind, wpx_get.
      unfold loop_fuel. cbn [self iteration main_loop].
      apply wpx_bind, wpx_get. cbn [self iteration].
      apply Z.ltb_lt in Hmax. rewrite Hmax.
      apply wpx_bind.
      eapply wpx_mono; [apply first_pass_exits | intros b s' [] |].
      * cbn [fs logged add_log add_console tick add_event]. exact Hreport.
      * intros e s' ->. reflexivity.
    + apply wpx_bind.
      eapply wpx_mono;
        [apply _check_resources_exits | intros u s' [] | intros e s' He; exact He].
Qed.

(** X18. The resource check is fatal, also inside the loop.  When torch
    cannot be imported (or its queries raise), a first run (no status, no
    report, a positive budget) of an otherwise well set up experiment
    ends with exit code 1: during planning when PLAN.md is missing, and
    otherwise in the first pass, after the training script has run,
    because [sys.exit] is not caught by [except Exception]. *)
Theorem resource_check_is_fatal w :
  claude_version E w = VersionOk ->
  is_Some (fs w !! idea_file) ->
  fs w !! status_file = None ->
  fs w !! report_file = None ->
  0 < max_iterations cfg ->
  exit_code (fst (main E cfg w)) = Some 1.
Proof.
  intros Hprobe Hidea Hstatus Hreport Hmax.
  destruct (main_after_startup E cfg w Hprobe Hidea) as ([it sid gpu] & -> & Hit & Hgpu).
  cbn in Hit, Hgpu. subst it gpu.
  unfold with_self.
  assert (Hrun := run_exits sid (add_event (Spawn ["claude"; "--version"] Captured None) w)
                    Hstatus Hreport Hmax).
  unfold wpx in Hrun.
  destruct (run E cfg _) as [[u | e |] s']; cbn [fst]; [destruct Hrun | | destruct Hrun].
  subst e. reflexivity.
Qed.

End ResourceCheck.

(** ** More on the watchdog *)

Section WatchdogEffects.

Variable E : env.

(** [check_experiment] reads the clock and nothing else changes. *)
Lemma check_experiment_reads_only max_hours w :
  fs (snd (check_experiment E max_hours w)) = fs w /\
  trace (snd (check_experiment E max_hours w)) = trace w /\
  console (snd (check_experiment E max_hours w)) = console w.
Proof.
  unfold check_experiment, bind.
  destruct (fs w !! status_file) as [c |] eqn:Hfile.
  - rewrite (path_exists_present _ _ _ Hfile). simpl.
    unfold json_load. rewrite Hfile.
    destruct c as [text | d | r]; simpl; try (repeat split; reflexivity).
    destruct (Qgtb _ _); [repeat split; reflexivity |].
    destruct (_ >? 20); [repeat split; reflexivity |]. cbn.
    destruct (Qgtb _ _); repeat split; reflexivity.
  - rewrite (path_exists_absent _ _ Hfile). repeat split; reflexivity.
Qed.

(** X19. The watchdog writes at most one file, REPORT.md, and only when
    [check_experiment] said stop, with the reason it gave; every other
    file, status.json included, is as it was, whatever the arguments,
    for status.json absent, a JSON object (with its keys at the types of
    [jdict]) or text that [json.load] rejects, in which case the run
    ends in an error and nothing is written. *)
Theorem watchdog_writes_only_the_report argv w :
  status_covered w ->
  let w' := snd (watchdog_main E argv w) in
  (fs w' = fs w \/
   exists r,
     fst (check_experiment E 24 w) = Ret (true, r) /\
     fs w' = <[report_file := WatchdogReport r]> (fs w)) /\
  fs w' !! status_file = fs w !! status_file.
Proof.
  intros _. cbv zeta.
  assert (Hcases : fs (snd (watchdog_main E argv w)) = fs w \/
                   exists r,
                     fst (check_experiment E 24 w) = Ret (true, r) /\
                     fs (snd (watchdog_main E argv w)) =
                       <[report_file := WatchdogReport r]> (fs w)).
  { unfold watchdog_main.
    destruct (length argv <? 2)%nat; [left; reflexivity |].
    unfold bind.
    destruct (check_experiment_reads_only 24 w) as (Hfs & _ & _).
    destruct (check_experiment E 24 w) as [[[[|] r] | e |] w1]; cbn [fst snd] in *.
    - right. exists r. split; [reflexivity |]. cbn. rewrite Hfs. reflexivity.
    - left. cbn. exact Hfs.
    - left. exact Hfs.
    - left. exact Hfs. }
  split; [exact Hcases |].
  destruct Hcases as [-> | (r & _ & ->)]; [reflexivity |].
  apply lookup_insert_ne. discriminate.
Qed.

(** X20. A status document without [timestamp] never stops the
    experiment for its age: the defaults of [status.get] are clock
    readings taken just before the comparisons, so unless the clock
    jumps by more than 24 hours (2 hours for the second test) between
    two consecutive readings, the answer depends on the iteration alone,
    a missing [iteration] counting as 0. *)
Theorem check_experiment_without_timestamp w d :
  fs w !! status_file = Some (Json d) ->
  k_timestamp d = None ->
  let c := clock_reads w in
  let it := dict_get (k_iteration d) 0 in
  (time_at E (S c) <= time_at E c + inject_Z (24 * 3600))%Q ->
  (time_at E (S (S (S c))) <= time_at E (S (S c)) + inject_Z (2 * 3600))%Q ->
  fst (check_experiment E 24 w) =
  Ret (if 20 <? it then (true, ExceededIterations)
       else (false, Progress it (hours (time_at E (S c) - time_at E c)))).
Proof.
  intros Hfile Hts c it Hrun Hstale. subst c it.
  unfold check_experiment, bind.
  rewrite (path_exists_present _ _ _ Hfile). simpl.
  unfold json_load. rewrite Hfile, Hts. simpl.
  change 24%Q with (inject_Z 24). change 2%Q with (inject_Z 2).
  apply (not_older_than 24) in Hrun. rewrite Hrun.
  rewrite Z.gtb_ltb. destruct (20 <? dict_get (k_iteration d) 0); [reflexivity |]. cbn.
  apply (not_older_than 2) in Hstale. rewrite Hstale. reflexivity.
Qed.

End WatchdogEffects.

(** ** The retry budget of the assistant *)

Section RateLimit.

Variable E : env.
Variable cfg : config.

Lemma retry_step prompt rc r w e :
  attempt_fails E cfg prompt r w e ->
  rate_limit_text e = true ->
  rc < 2 ->
  run_claude E cfg prompt rc (State r w) =
  run_claude E cfg prompt (rc + 1) (State r (retry_world E cfg prompt r w e)).
Proof.
  intros (returncode & stdout & Hexit & Hcode) Hmatch Hrc.
  unfold run_claude, retry_world.
  rewrite run_claude_fuel_unfold. cbv zeta. rewrite Hexit.
  apply Z.eqb_neq in Hcode. rewrite Hcode.
  unfold is_transient. unfold rate_limit_text in Hmatch. rewrite Hmatch.
  apply Z.ltb_lt in Hrc. rewrite Hrc. cbn [andb]. apply Z.ltb_lt in Hrc.
  replace (Z.to_nat (2 - rc)) with (S (Z.to_nat (2 - (rc + 1)))) by lia.
  destruct (run_claude_shape E cfg prompt (rc + 1) r
              (before_retry E e
                 (after_claude E (build_cmd cfg (session_id r) prompt)
                    (at_claude_spawn E r w))))
    as (b & s' & _ & _ & Heq & _).
  unfold run_claude in Heq. rewrite Heq. apply try_except_ret, Heq.
Qed.

Lemma stop_step prompt rc r w e :
  attempt_fails E cfg prompt r w e ->
  rate_limit_text e = false \/ 2 <= rc ->
  run_claude E cfg prompt rc (State r w) =
  (Ret false,
   State r (logged E (ClaudeError (error_msg_of e))
              (after_claude E (build_cmd cfg (session_id r) prompt)
                 (at_claude_spawn E r w)))).
Proof.
  intros (returncode & stdout & Hexit & Hcode) Hstop.
  unfold run_claude. rewrite run_claude_fuel_unfold. cbv zeta. rewrite Hexit.
  apply Z.eqb_neq in Hcode. rewrite Hcode.
  assert (Hnot : is_transient rc (error_msg_of e) = false).
  { unfold is_transient. destruct Hstop as [Hmatch | Hrc].
    - unfold rate_limit_text in Hmatch. rewrite Hmatch. apply andb_false_r.
    - apply Z.ltb_ge in Hrc. rewrite Hrc. reflexivity. }
  rewrite Hnot. reflexivity.
Qed.

Lemma trace_retry_world prompt r w e :
  trace (retry_world E cfg prompt r w e) =
  trace w ++ [Spawn (build_cmd cfg (session_id r) prompt) Captured (Some 600); Sleep 30].
Proof.
  unfold retry_world, before_retry.
  cbn [trace add_event logged add_log add_console tick].
  rewrite trace_after_claude, trace_at_claude_spawn, <- app_assoc. reflexivity.
Qed.

(** A response with its accounting keys is a success. *)
Lemma run_claude_parse_accounted d prompt r w :
  accounted d = true ->
  wpx (try_except (run_claude_parse E (Json d)) (run_claude_except E prompt))
    (fun b _ => b = true) (fun _ _ => False) (State r w).
Proof.
  intros Hkeys. unfold run_claude_parse, _log_claude_output.
  repeat wp_step; try reflexivity;
    unfold accounted in Hkeys;
    repeat match goal with
           | H : k_cost_usd d = _ |- _ => rewrite H in Hkeys
           | H : k_total_cost d = _ |- _ => rewrite H in Hkeys
           | H : k_num_turns d = _ |- _ => rewrite H in Hkeys
           end;
    discriminate.
Qed.

Lemma success_step prompt rc r w d stderr :
  fst (claude_cli E (build_cmd cfg (session_id r) prompt) (at_claude_spawn E r w)) =
    ClaudeExit 0 (Json d) stderr ->
  accounted d = true ->
  fst (run_claude E cfg prompt rc (State r w)) = Ret true /\
  exists evs,
    trace (outside (snd (run_claude E cfg prompt rc (State r w)))) =
      trace w ++ Spawn (build_cmd cfg (session_id r) prompt) Captured (Some 600) :: evs /\
    Forall is_write evs.
Proof.
  intros Hexit Hkeys. unfold run_claude.
  rewrite run_claude_fuel_unfold. cbv zeta. rewrite Hexit. cbn [Z.eqb].
  set (w1 := after_claude E _ _).
  assert (Hb := run_claude_parse_accounted d prompt r w1 Hkeys).
  destruct (run_claude_parse_handled E (Json d) prompt r w1)
    as (b & s' & Heq & (evs & Htrace & Hwrites) & _).
  unfold wpx in Hb. rewrite Heq in Hb. subst b. rewrite Heq. cbn [fst snd].
  split; [reflexivity |]. exists evs. split; [| exact Hwrites].
  rewrite Htrace. cbn [outside]. unfold w1.
  rewrite trace_after_claude, trace_at_claude_spawn, <- app_assoc. reflexivity.
Qed.

(** C3. The retry budget of [run_claude], for the object [r] in the
    world [w].  An attempt that exits with a non-zero code is retried,
    after a pause of 30 seconds and with the counter one higher, when
    its error text has the rate limit signature and fewer than 2 retries
    were made; otherwise the call answers [False] after that attempt,
    without a pause.  Hence: two rate limited attempts followed by a
    successful one make a call that answers [True] after exactly three
    starts and two pauses of 30 seconds, and three rate limited attempts
    in a row make a call that answers [False] after exactly three starts,
    with no fourth one. *)
Theorem rate_limit_retries prompt r w :
  let cmd := build_cmd cfg (session_id r) prompt in
  let call := fun rc w => run_claude E cfg prompt rc (State r w) in
  let fails := attempt_fails E cfg prompt r in
  let next := retry_world E cfg prompt r in
  (forall rc e,
     fails w e -> rate_limit_text e = true -> rc < 2 ->
     call rc w = call (rc + 1) (next w e) /\
     trace (next w e) = trace w ++ [Spawn cmd Captured (Some 600); Sleep 30]) /\
  (forall rc e,
     fails w e -> rate_limit_text e = false \/ 2 <= rc ->
     fst (call rc w) = Ret false /\
     trace (outside (snd (call rc w))) = trace w ++ [Spawn cmd Captured (Some 600)]) /\
  (forall e1 e2 d stderr,
     fails w e1 -> rate_limit_text e1 = true ->
     fails (next w e1) e2 -> rate_limit_text e2 = true ->
     fst (claude_cli E cmd (at_claude_spawn E r (next (next w e1) e2))) =
       ClaudeExit 0 (Json d) stderr ->
     accounted d = true ->
     fst (call 0 w) = Ret true /\
     exists added,
       trace (outside (snd (call 0 w))) = trace w ++ added /\
       spawns added = [cmd; cmd; cmd] /\
       sleeps added = [30; 30]) /\
  (forall e1 e2 e3,
     fails w e1 -> rate_limit_text e1 = true ->
     fails (next w e1) e2 -> rate_limit_text e2 = true ->
     fails (next (next w e1) e2) e3 ->
     fst (call 0 w) = Ret false /\
     exists added,
       trace (outside (snd (call 0 w))) = trace w ++ added /\
       spawns added = [cmd; cmd; cmd] /\
       sleeps added = [30; 30]).
Proof.
  cbv zeta. split; [| split; [| split]].
  - intros rc e Hfail Hmatch Hrc.
    split; [apply retry_step; assumption | apply trace_retry_world].
  - intros rc e Hfail Hstop. rewrite (stop_step prompt rc r w e Hfail Hstop).
    cbn [fst snd outside]. split; [reflexivity |].
    cbn [trace logged add_log add_console tick].
    rewrite trace_after_claude, trace_at_claude_spawn. reflexivity.
  - intros e1 e2 d stderr Hfail1 Hmatch1 Hfail2 Hmatch2 Hexit Hkeys.
    rewrite (retry_step prompt 0 r w e1 Hfail1 Hmatch1) by lia.
    rewrite (retry_step prompt (0 + 1) r _ e2 Hfail2 Hmatch2) by lia.
    destruct (success_step prompt (0 + 1 + 1) r _ d stderr Hexit Hkeys)
      as (Hret & evs & Htrace & Hwrites).
    split; [exact Hret |].
    eexists. split.
    + rewrite Htrace, !trace_retry_world, <- !app_assoc. reflexivity.
    + rewrite !spawns_app, !sleeps_app.
      change (?a :: evs) with ([a] ++ evs).
      rewrite spawns_app, sleeps_app,
        (writes_spawn_nothing evs Hwrites), (writes_sleep_nothing evs Hwrites).
      split; reflexivity.
  - intros e1 e2 e3 Hfail1 Hmatch1 Hfail2 Hmatch2 Hfail3.
    rewrite (retry_step prompt 0 r w e1 Hfail1 Hmatch1) by lia.
    rewrite (retry_step prompt (0 + 1) r _ e2 Hfail2 Hmatch2) by lia.
    rewrite (stop_step prompt (0 + 1 + 1) r _ e3 Hfail3) by (right; lia).
    cbn [fst snd outside]. split; [reflexivity |].
    eexists. split.
    + cbn [trace logged add_log add_console tick].
      rewrite trace_after_claude, trace_at_claude_spawn, !trace_retry_world, <- !app_assoc.
      reflexivity.
    + split; reflexivity.
Qed.

End RateLimit.

(** ** The session is resumed *)

Section Session.

Variable E : env.
Variable cfg : config.

Lemma build_cmd_resume sid prompt :
  sid <> "" ->
  build_cmd cfg (Some sid) prompt =
  ["claude"; "--output-format"; "json"; "--allowedTools"; allowed_tools cfg;
   "--resume"; sid; "-p"; prompt].
Proof.
  intros Hne. unfold build_cmd, truthy.
  destruct (String.eqb_spec sid ""); [contradiction | reflexivity].
Qed.

(** C5. The session of the object is what every command line is built
    from.  A new object holds the session stored in status.json; every
    start of the assistant by a call of [run_claude] uses the command
    line built from the session held at the call, and that command line
    carries [--resume sid] when the session is a (non-empty) identifier
    [sid]; and when the assistant exits with code 0 and its output is a
    JSON object with the key [session_id], the call ends, whatever it
    answers, with that session in the object and in status.json, so that
    the next call, with any prompt, starts the assistant with the
    command line built from the new session. *)
Theorem session_resumed prompt rc r w :
  let cmd := build_cmd cfg (session_id r) prompt in
  let s' := snd (run_claude E cfg prompt rc (State r w)) in
  (forall d,
     is_Some (fs w !! idea_file) ->
     fs w !! status_file = Some (Json d) ->
     fst (init w) = Ret (Runner 0 (dict_get (k_session_id d) None) None)) /\
  (exists added,
     trace (outside s') = trace w ++ Spawn cmd Captured (Some 600) :: added /\
     Forall (fun c => c = cmd) (spawns added)) /\
  (forall sid,
     session_id r = Some sid -> sid <> "" ->
     cmd = ["claude"; "--output-format"; "json"; "--allowedTools"; allowed_tools cfg;
            "--resume"; sid; "-p"; prompt]) /\
  (forall d sid stderr,
     fst (claude_cli E cmd (at_claude_spawn E r w)) = ClaudeExit 0 (Json d) stderr ->
     k_session_id d = Some sid ->
     session_id (self s') = sid /\
     (exists t c,
        fs (outside s') !! status_file = Some (status_doc (iteration r) t c sid) /\
        In (Write status_file (status_doc (iteration r) t c sid)) (trace (outside s'))) /\
     forall prompt' rc',
       exists rest,
         trace (outside (snd (run_claude E cfg prompt' rc' s'))) =
         trace (outside s') ++ Spawn (build_cmd cfg sid prompt') Captured (Some 600) :: rest).
Proof.
  cbv zeta. split; [| split; [| split]].
  - intros d Hidea Hstatus. rewrite init_present by exact Hidea.
    rewrite Hstatus. reflexivity.
  - destruct (run_claude_shape E cfg prompt rc r w)
      as (b & s' & n & rest & Heq & _ & Htrace & Hspawns & _).
    exists rest. rewrite Heq. split; [exact Htrace |].
    rewrite Hspawns. clear. induction n; constructor; [reflexivity | assumption].
  - intros sid Hsid Hne. rewrite Hsid. apply build_cmd_resume, Hne.
  - intros d sid stderr Hexit Hsid.
    assert (Hcall : run_claude E cfg prompt rc (State r w) =
                    try_except (run_claude_parse E (Json d)) (run_claude_except E prompt)
                      (State r (after_claude E (build_cmd cfg (session_id r) prompt)
                                  (at_claude_spawn E r w)))).
    { unfold run_claude. rewrite run_claude_fuel_unfold. cbv zeta. rewrite Hexit.
      reflexivity. }
    rewrite Hcall.
    assert (H := run_claude_parse_adopts E d sid prompt r
                   (after_claude E (build_cmd cfg (session_id r) prompt)
                      (at_claude_spawn E r w)) Hsid).
    unfold wpx in H.
    destruct (try_except _ _ _) as [[b | e |] [r' w']]; [| destruct H | destruct H].
    destruct H as (_ & Hs & Hfs & rest & Htrace). cbn [fst snd self outside] in *.
    split; [exact Hs |]. split.
    + eexists _, _. split; [exact Hfs |].
      rewrite Htrace. apply in_or_app. right. left. reflexivity.
    + intros prompt' rc'.
      destruct (run_claude_shape E cfg prompt' rc' r' w')
        as (b' & s'' & n & rest' & Heq & _ & Htrace' & _).
      exists rest'. rewrite Heq, <- Hs. exact Htrace'.
Qed.

End Session.

(** ** The stored iteration, pass after pass and run after run *)

Lemma sorted_prefix (l : list Z) (x : Z) :
  StronglySorted Z.le (l ++ [x]) -> StronglySorted Z.le l.
Proof.
  induction l as [| a l IH]; intros H; [constructor |].
  simpl in H. apply StronglySorted_inv in H as [Hl Ha].
  constructor; [apply IH, Hl |].
  apply Forall_app in Ha. tauto.
Qed.

Section Persisted.

Variable E : env.
Variable cfg : config.

(** C4. The iteration stored in status.json grows by one with each
    completed pass and never decreases, within a run and from one run to
    the next.  A new object on the directory in which [save_status]
    wrote starts with the stored session, and the loading block of [run]
    sets its counter to the stored iteration, not to zero; a pass that
    answers [True] leaves the counter one higher, stores that value (and
    no other value during the pass) and ends with it in status.json; and
    if the values written so far are in non-decreasing order and none is
    above the value [run] resumes from (the stored one, or the counter
    of the object when there is no status.json), then after [run],
    however it ends, all values written are in non-decreasing order. *)
Theorem stored_iteration_grows r w :
  (is_Some (fs w !! idea_file) ->
   let w' := outside (snd (save_status E (State r w))) in
   init w' = (Ret (Runner 0 (session_id r) None), w') /\
   forall r0, exists complete,
     run_load_previous (State r0 w') =
     (Ret complete, State (Runner (iteration r) (session_id r0) (gpu_info r0)) w')) /\
  (forall s',
     run_iteration E cfg (State r w) = (Ret true, s') ->
     iteration (self s') = iteration r + 1 /\
     (exists t c,
        fs (outside s') !! status_file =
        Some (status_doc (iteration r + 1) t c (session_id (self s')))) /\
     exists evs,
       trace (outside s') = trace w ++ evs /\
       Forall (fun v => v = iteration r + 1) (persisted evs)) /\
  (readable w ->
   StronglySorted Z.le (persisted (trace w) ++ [iteration (loaded r w)]) ->
   StronglySorted Z.le (persisted (trace (outside (snd (run E cfg (State r w))))))).
Proof.
  split; [| split].
  - intros [idea Hidea] w'. subst w'. rewrite save_status_eq. cbn [snd outside].
    split.
    + eapply init_stored; [| apply saved_lookup].
      exists idea. unfold saved. cbn [fs add_event set_fs].
      rewrite lookup_insert_ne by discriminate. exact Hidea.
    + intros r0. eexists. eapply run_load_previous_stored, saved_lookup.
  - intros s' Hpass.
    assert (Hspec := run_iteration_next_pass E cfg r w). unfold wpx in Hspec.
    rewrite Hpass in Hspec. destruct Hspec as [[Hit Hevs] Hdoc].
    split; [exact Hit |]. split; [exact Hdoc | exact Hevs].
  - intros _ Hsorted. eapply sorted_prefix, run_monotone, Hsorted.
Qed.

End Persisted.

(** ** What halts the process *)

Section Halting.

Variable E : env.
Variable cfg : config.




End Halting.

(** ** What is logged *)

Lemma lg_refl w : log_grows w w [].
Proof. unfold log_grows. rewrite !app_nil_r. split; reflexivity. Qed.

Lemma lg_trans w1 w2 w3 l1 l2 :
  log_grows w1 w2 l1 -> log_grows w2 w3 l2 -> log_grows w1 w3 (l1 ++ l2).
Proof.
  unfold log_grows. intros [H1 H1'] [H2 H2'].
  rewrite H2, H1, H2', H1', map_app, <- !app_assoc. split; reflexivity.
Qed.

Lemma lg_event w w' ls e : log_grows w w' ls -> log_grows w (add_event e w') ls.
Proof. exact (fun H => H). Qed.

Lemma lg_set_fs w w' ls files : log_grows w w' ls -> log_grows w (set_fs files w') ls.
Proof. exact (fun H => H). Qed.

Lemma has_line_app P l1 l2 : has_line P (l1 ++ l2) = has_line P l1 || has_line P l2.
Proof. apply existsb_app. Qed.

Section Logged.

Variable E : env.
Variable cfg : config.

Lemma lg_logged w w' ls m :
  log_grows w w' ls ->
  log_grows w (logged E m w') (ls ++ [(time_at E (clock_reads w'), m)]).
Proof.
  intros H. eapply lg_trans; [exact H |].
  unfold log_grows, logged. split; reflexivity.
Qed.

Lemma lg_saved w w' ls r : log_grows w w' ls -> log_grows w (saved E r w') ls.
Proof. exact (fun H => H). Qed.

End Logged.

(** Discharges [log_grows w w' ?ls] when [w'] is [w] after logs, status
    writes, pauses, child processes and writes. *)
Ltac lg_step :=
  lazymatch goal with
  | |- log_grows _ (logged _ _ _) _ => apply lg_logged
  | |- log_grows _ (saved _ _ _) _ => apply lg_saved
  | |- log_grows _ (add_event _ _) _ => apply lg_event
  | |- log_grows _ (set_fs _ _) _ => apply lg_set_fs
  | |- log_grows ?w ?w _ => apply lg_refl
  end.

Ltac lg := cbn [outside]; repeat lg_step.

(** Closes a goal [exists ls, log_grows .. ls /\ (b = false -> ..)] on
    an explicit final world. *)
Ltac lg_done :=
  eexists; split; [lg | first [intros H; discriminate H | intros _; reflexivity]].

Section Reported.

Variable E : env.
Variable cfg : config.

Lemma run_claude_parse_logged stdout prompt r w :
  wpx (try_except (run_claude_parse E stdout) (run_claude_except E prompt))
    (fun b s' =>
       exists ls, log_grows w (outside s') ls /\
                  (b = false -> has_line assistant_failure ls = true))
    (fun _ _ => False)
    (State r w).
Proof.
  unfold run_claude_parse, _log_claude_output.
  repeat wp_step; lg_done.
Qed.

Lemma at_claude_spawn_logged r w :
  exists ls, log_grows w (at_claude_spawn E r w) ls.
Proof.
  unfold at_claude_spawn. destruct (truthy (session_id r)); eexists; lg.
Qed.

Lemma run_claude_fuel_logged fuel : forall prompt rc r w,
  (Z.to_nat (2 - rc) < fuel)%nat ->
  exists b s' ls,
    run_claude_fuel E cfg fuel prompt rc (State r w) = (Ret b, s') /\
    log_grows w (outside s') ls /\
    (b = false -> has_line assistant_failure ls = true).
Proof.
  induction fuel as [| fuel IH]; intros prompt rc r w Hfuel; [lia |].
  rewrite run_claude_fuel_unfold. cbv zeta.
  set (cmd := build_cmd cfg (session_id r) prompt).
  destruct (at_claude_spawn_logged r w) as (l0 & Hl0).
  set (w0 := at_claude_spawn E r w) in *.
  assert (Hl1 : log_grows w (after_claude E cmd w0) l0) by exact Hl0.
  destruct (fst (claude_cli E cmd w0)) as [returncode stdout stderr | | text].
  - destruct (returncode =? 0).
    + assert (H := run_claude_parse_logged stdout prompt r (after_claude E cmd w0)).
      unfold wpx in H.
      destruct (try_except _ _ _) as [[b | e |] s']; [| destruct H | destruct H].
      destruct H as (ls & Hls & Hfail).
      exists b, s', (l0 ++ ls). split; [reflexivity |].
      split; [eapply lg_trans; eassumption |].
      intros Hb. rewrite has_line_app, (Hfail Hb). apply orb_true_r.
    + destruct (is_transient rc (error_msg_of stderr)) eqn:Htransient.
      * assert (Hrc : rc < 2).
        { unfold is_transient in Htransient. apply andb_prop in Htransient as [H _]. lia. }
        destruct (IH prompt (rc + 1) r (before_retry E stderr (after_claude E cmd w0)))
          as (b & s' & ls & Heq & Hls & Hfail); [lia |].
        rewrite (try_except_ret _ _ _ _ _ Heq).
        eexists b, s', _. split; [reflexivity |]. split.
        -- eapply lg_trans; [| exact Hls]. unfold before_retry. lg. exact Hl1.
        -- intros _. rewrite !has_line_app. cbn. rewrite orb_true_r. reflexivity.
      * eexists false, _, _. split; [reflexivity |]. split; [lg; exact Hl1 |].
        intros _. rewrite has_line_app. apply orb_true_r.
  - eexists false, _, _. split; [reflexivity |]. split; [lg; exact Hl1 |].
    intros _. rewrite has_line_app. apply orb_true_r.
  - eexists false, _, _. split; [reflexivity |]. split; [lg; exact Hl1 |].
    intros _. rewrite has_line_app. apply orb_true_r.
Qed.

Lemma run_training_logged r w :
  wpx (run_training E)
    (fun res s' =>
       exists ls, log_grows w (outside s') ls /\
                  (fst res = false ->
                   has_line training_failure ls = true \/
                   snd res = "No training script found" /\ ls = []))
    (fun _ _ => False)
    (State r w).
Proof.
  unfold run_training.
  repeat wp_step;
    (eexists; split;
     [lg | first [intros H; discriminate H
                 | intros _; left; reflexivity
                 | intros _; right; split; reflexivity]]).
Qed.

Lemma _check_resources_logged r w :
  wpx (_check_resources E)
    (fun _ s' => exists ls, log_grows w (outside s') ls)
    (fun e s' =>
       e = SystemExit 1 /\
       exists ls, log_grows w (outside s') ls /\ has_line resource_failure ls = true)
    (State r w).
Proof.
  unfold _check_resources.
  repeat wp_step;
    lazymatch goal with
    | |- _ = _ /\ _ => split; [reflexivity |]; eexists; split; [lg | reflexivity]
    | |- exists _, _ => eexists; lg
    end.
Qed.

(** C8, as the program has it.  [self.log] prints its line and appends
    it, with the same stamp, to logs/runner.log.  Every failure of the
    assistant (non-zero exit, timeout, failure to start, output that is
    not JSON, a missing accounting key), every failure of a training
    script that was started (non-zero exit, timeout, failure to start)
    and every failure of the resource check is reported through
    [self.log] before the method answers; a missing training script is
    reported to the caller only, and no line is logged for it. *)
Theorem failures_are_logged prompt rc r w :
  (forall m,
     log E m (State r w) = (Ret tt, State r (logged E m w)) /\
     log_grows w (logged E m w) [(time_at E (clock_reads w), m)]) /\
  (exists b s' ls,
     run_claude E cfg prompt rc (State r w) = (Ret b, s') /\
     log_grows w (outside s') ls /\
     (b = false -> has_line assistant_failure ls = true)) /\
  (exists res s' ls,
     run_training E (State r w) = (Ret res, s') /\
     log_grows w (outside s') ls /\
     (fst res = false ->
      has_line training_failure ls = true \/
      snd res = "No training script found" /\ ls = [])) /\
  match _check_resources E (State r w) with
  | (Ret _, s') => exists ls, log_grows w (outside s') ls
  | (Raise e, s') =>
      e = SystemExit 1 /\
      exists ls, log_grows w (outside s') ls /\ has_line resource_failure ls = true
  | (OutOfFuel, _) => False
  end.
Proof.
  split; [| split; [| split]].
  - intros m. split; [reflexivity |]. apply (lg_logged E w w [] m), lg_refl.
  - apply run_claude_fuel_logged. lia.
  - assert (H := run_training_logged r w). unfold wpx in H.
    destruct (run_training E (State r w)) as [[res | e |] s']; [| destruct H | destruct H].
    destruct H as (ls & Hls & Hfail). exists res, s', ls. tauto.
  - exact (_check_resources_logged r w).
Qed.

End Reported.

(** ** The theorems at work *)

Lemma report_stops_the_loop_witness :
  let w := world_of {[ "REPORT.md" := Text "done" ]} in
  let r := Runner 3 None None in
  fst (run_iteration (quiet_env 1000) default_config (State r w)) = Ret false /\
  trace (outside (snd (main_loop (quiet_env 1000) default_config 1 (State r w)))) = [].
Proof.
  intros w r.
  assert (Hreport : is_Some (fs w !! report_file)) by (eexists; reflexivity).
  destruct (report_stops_the_loop (quiet_env 1000) default_config r w Hreport)
    as [(Hret & _ & _) Hloop].
  split; [exact Hret |].
  destruct (Hloop 0%nat) as (_ & _ & Htrace); [simpl; lia | exact Htrace].
Defined.

Lemma status_round_trip_witness :
  let E := quiet_env 1000 in
  let r := Runner 4 (Some "s1") None in
  let w' := outside (snd (save_status E (State r new_experiment))) in
  init w' = (Ret (Runner 0 (Some "s1") None), w') /\
  iteration (self (snd (run_load_previous (State new_runner w')))) = 4.
Proof.
  intros E r w'.
  assert (Hidea : is_Some (fs new_experiment !! idea_file)) by (eexists; reflexivity).
  destruct (status_round_trip E r new_experiment new_runner Hidea)
    as [(t & c & _ & Hload) Hinit].
  split; [exact Hinit |].
  fold w' in Hload. rewrite Hload. reflexivity.
Defined.

Lemma persisted_never_decreases_witness :
  StronglySorted Z.le
    (persisted (trace (outside (snd (run assistant_finishes default_config
                                        (State new_runner new_experiment)))))).
Proof.
  apply (persisted_never_decreases assistant_finishes default_config
           new_runner new_experiment).
  vm_compute. repeat constructor.
Defined.

Lemma run_claude_retry_witness :
  let E := rate_limited_twice in
  let r := new_runner in
  let w := new_experiment in
  let cmd := build_cmd default_config (session_id r) "plan it" in
  run_claude E default_config "plan it" 0 (State r w) =
  run_claude E default_config "plan it" 1
    (State r (before_retry E "Error: Rate limit exceeded"
                (after_claude E cmd (at_claude_spawn E r w)))).
Proof.
  intros E r w cmd.
  apply (run_claude_retry E default_config "plan it" 0 r w 1 (Text "")
           "Error: Rate limit exceeded").
  - reflexivity.
  - lia.
  - lia.
  - reflexivity.
Defined.

Lemma run_claude_gives_up_witness :
  let E := assistant_broken in
  let r := new_runner in
  let w := new_experiment in
  let cmd := build_cmd default_config (session_id r) "plan it" in
  run_claude E default_config "plan it" 0 (State r w) =
  (Ret false,
   State r (logged E (ClaudeError (error_msg_of "Error: invalid API key"))
              (after_claude E cmd (at_claude_spawn E r w)))).
Proof.
  intros E r w cmd.
  apply (run_claude_gives_up E default_config "plan it" 0 r w 2 (Text "")
           "Error: invalid API key").
  - reflexivity.
  - lia.
  - right. reflexivity.
Defined.

Lemma run_claude_adopts_before_failing_witness :
  let E := assistant_unaccounted in
  let s' := snd (run_claude E default_config "plan it" 0 (State new_runner new_experiment)) in
  fst (run_claude E default_config "plan it" 0 (State new_runner new_experiment)) = Ret false /\
  session_id (self s') = Some "s9" /\
  exists t c, fs (outside s') !! status_file = Some (status_doc 0 t c (Some "s9")).
Proof.
  intros E s'.
  destruct (run_claude_adopts_before_failing E default_config "plan it" 0
              new_runner new_experiment
              (JDict None None None (Some (Some "s9")) (Some "hello") None None None)
              (Some "s9") "")
    as (Hret & Hsid & t & c & Hfs & _).
  - reflexivity.
  - reflexivity.
  - reflexivity.
  - split; [exact Hret |]. split; [exact Hsid |]. exists t, c. exact Hfs.
Defined.

Lemma run_claude_resume_directive_witness :
  let r := Runner 2 (Some "s1") None in
  build_cmd default_config (session_id r) "next" =
    ["claude"; "--output-format"; "json"; "--allowedTools"; allowed_tools default_config;
     "--resume"; "s1"; "-p"; "next"] /\
  build_cmd default_config (session_id (Runner 2 (Some "") None)) "next" =
    ["claude"; "--output-format"; "json"; "--allowedTools"; allowed_tools default_config;
     "-p"; "next"].
Proof.
  intros r. split.
  - destruct (run_claude_resume_directive (quiet_env 1000) default_config "next" 0 r
                new_experiment) as (_ & Hresume & _).
    apply (Hresume "s1"); [reflexivity | discriminate].
  - destruct (run_claude_resume_directive (quiet_env 1000) default_config "next" 0
                (Runner 2 (Some "") None) new_experiment) as (_ & _ & Hfresh).
    apply Hfresh. right. reflexivity.
Defined.

Lemma save_session_id_round_trip_witness :
  let w := world_of {[ "status.json" := status_doc 3 1000 false None;
                       "IDEA.md" := Text "idea" ]} in
  let w' := snd (save_session_id "s7" w) in
  fs w' !! "status.json" = Some (status_doc 3 1000 false (Some "s7")) /\
  fs w' !! "IDEA.md" = Some (Text "idea") /\
  get_session_id w' = (Ret (Some "s7"), w').
Proof.
  intros w w'.
  destruct (save_session_id_round_trip "s7" w) as (_ & Hdoc & Hother & Hget);
    [right; left; eexists; reflexivity |].
  split; [exact Hdoc |]. split; [| exact Hget].
  fold w' in Hother. rewrite (Hother "IDEA.md"); [reflexivity | discriminate].
Defined.

Lemma main_startup_failures_witness :
  let w := world_of {[ "train.py" := Text "print(1)" ]} in
  exit_code (fst (main (quiet_env 1000) default_config w)) = Some 1 /\
  fs (snd (main (quiet_env 1000) default_config w)) = fs w.
Proof.
  intros w.
  destruct (main_startup_failures (quiet_env 1000) default_config w) as [_ Hidea].
  rewrite Hidea.
  - split; reflexivity.
  - reflexivity.
  - split; [exists "train.py"; eexists; reflexivity | reflexivity].
  - reflexivity.
Defined.


Lemma run_already_complete_witness :
  let w := world_of {[ "status.json" := status_doc 5 1000 true (Some "s1") ]} in
  fst (run (quiet_env 1000) default_config (State new_runner w)) = Ret tt /\
  trace (outside (snd (run (quiet_env 1000) default_config (State new_runner w)))) = [].
Proof.
  intros w.
  rewrite (run_already_complete (quiet_env 1000) default_config new_runner w
             (JDict (Some 5) (Some 1000%Q) (Some true) (Some (Some "s1"))
                    None None None None)); [| reflexivity | reflexivity].
  split; reflexivity.
Defined.

Lemma run_plan_failure_witness :
  let res := run assistant_broken default_config (State new_runner new_experiment) in
  fst res = Ret tt /\
  spawns (trace (outside (snd res))) =
    [build_cmd default_config None (plan_prompt default_config
                                      (Some (Some "No GPU available - using CPU")))] /\
  persisted (trace (outside (snd res))) = [].
Proof.
  intros res. subst res.
  rewrite (run_plan_failure assistant_broken default_config new_runner new_experiment);
    [| reflexivity | reflexivity | vm_compute; reflexivity].
  split; [reflexivity |]. split; vm_compute; reflexivity.
Defined.

Lemma resource_check_is_fatal_witness :
  let E := replay_env 1000 [] (ScriptExit 0) TorchImportError in
  let w := world_of {[ "IDEA.md" := Text "idea"; "PLAN.md" := Text "plan";
                       "train.py" := Text "print(1)" ]} in
  exit_code (fst (main E default_config w)) = Some 1.
Proof.
  intros E w.
  apply (resource_check_is_fatal E default_config).
  - intros w'. reflexivity.
  - reflexivity.
  - eexists. reflexivity.
  - reflexivity.
  - reflexivity.
  - reflexivity.
Defined.

Lemma check_experiment_without_timestamp_witness :
  let w := world_of {[ "status.json" := Json empty_dict ]} in
  fst (check_experiment (quiet_env 1000) 24 w) =
  Ret (false, Progress 0 (hours (1000 - 1000))).
Proof.
  intros w.
  rewrite (check_experiment_without_timestamp (quiet_env 1000) w empty_dict).
  - reflexivity.
  - reflexivity.
  - reflexivity.
  - vm_compute. discriminate.
  - vm_compute. discriminate.
Defined.

Lemma rate_limit_retries_witness :
  let cmd := build_cmd default_config None "plan it" in
  let call := run_claude rate_limited_twice default_config "plan it" 0
                (State new_runner new_experiment) in
  fst call = Ret true /\
  exists added,
    trace (outside (snd call)) = [] ++ added /\
    spawns added = [cmd; cmd; cmd] /\
    sleeps added = [30; 30].
Proof.
  intros cmd call.
  destruct (rate_limit_retries rate_limited_twice default_config "plan it"
              new_runner new_experiment) as (_ & _ & Hthird & _).
  apply (Hthird "Error: Rate limit exceeded" "Error: Rate limit exceeded"
           (JDict None None None (Some (Some "s1")) (Some "planned")
                  (Some 0.5%Q) (Some 1.5%Q) (Some 3)) "").
  - exists 1, (Text ""). split; [reflexivity | discriminate].
  - reflexivity.
  - exists 1, (Text ""). split; [reflexivity | discriminate].
  - reflexivity.
  - reflexivity.
  - reflexivity.
Defined.

Lemma session_resumed_witness :
  let E := assistant_finishes in
  let s' := snd (run_claude E default_config "plan it" 0 (State new_runner new_experiment)) in
  session_id (self s') = Some "s1" /\
  exists rest,
    trace (outside (snd (run_claude E default_config "next" 0 s'))) =
    trace (outside s') ++
    Spawn ["claude"; "--output-format"; "json"; "--allowedTools";
           allowed_tools default_config; "--resume"; "s1"; "-p"; "next"]
      Captured (Some 600) :: rest.
Proof.
  intros E s'.
  destruct (session_resumed E default_config "plan it" 0 new_runner new_experiment)
    as (_ & _ & _ & Hadopt).
  destruct (Hadopt (JDict None None None (Some (Some "s1")) (Some "planned")
                          (Some 0.5%Q) (Some 1.5%Q) (Some 3)) (Some "s1") "")
    as (Hsid & _ & Hnext); [reflexivity | reflexivity |].
  split; [exact Hsid |]. exact (Hnext "next" 0).
Defined.

Lemma stored_iteration_grows_witness :
  let E := assistant_finishes in
  let r := Runner 4 (Some "s1") None in
  let w' := outside (snd (save_status E (State r new_experiment))) in
  init w' = (Ret (Runner 0 (Some "s1") None), w') /\
  (exists complete,
     run_load_previous (State new_runner w') = (Ret complete, State (Runner 4 None None) w')) /\
  iteration (self (snd (run_iteration E default_config (State r new_experiment)))) = 5 /\
  StronglySorted Z.le
    (persisted (trace (outside (snd (run E default_config (State new_runner new_experiment)))))).
Proof.
  intros E r w'.
  destruct (stored_iteration_grows E default_config r new_experiment)
    as (Hresume & Hpass & _).
  destruct Hresume as [Hinit Hload]; [eexists; reflexivity |].
  split; [exact Hinit |]. split; [exact (Hload new_runner) |]. split.
  - destruct (Hpass (snd (run_iteration E default_config (State r new_experiment))))
      as (Hit & _); [vm_compute; reflexivity | exact Hit].
  - destruct (stored_iteration_grows E default_config new_runner new_experiment)
      as (_ & _ & Hsorted).
    apply Hsorted; [exact I | vm_compute; repeat constructor].
Defined.



(** C8 fails as written.  [get_session_id] meets a status.json that is
    not JSON with a bare [except: pass]: nothing is printed and nothing
    is logged.  A missing training script is reported to the caller
    only.  And the errors of startup are printed, not logged. *)
Lemma silent_failures :
  let E := quiet_env 1000 in
  let w := world_of {[ "IDEA.md" := Text "idea"; "status.json" := Text "{" ]} in
  let w0 := world_of {[ "train.py" := Text "print(1)" ]} in
  get_session_id w = (Ret None, w) /\
  run_training E (State new_runner w) =
    (Ret (false, "No training script found"), State new_runner w) /\
  exit_code (fst (main E default_config w0)) = Some 1 /\
  console (snd (main E default_config w0)) =
    [(None, IdeaNotFound); (None, PleaseCreateIdea)] /\
  runner_log (snd (main E default_config w0)) = [].
Proof.
  cbv zeta. split; [reflexivity |]. split; [reflexivity |].
  split; [reflexivity |]. split; reflexivity.
Qed.

Lemma watchdog_writes_only_the_report_witness :
  let argv := ["watchdog.py"; "experiment"] in
  let w := world_of {[ status_file := status_doc 5 910000 false None ]} in
  let w' := snd (watchdog_main (quiet_env 1000000) argv w) in
  fs w' !! status_file = Some (status_doc 5 910000 false None) /\
  is_Some (fs w' !! report_file).
Proof.
  intros argv w w'.
  destruct (watchdog_writes_only_the_report (quiet_env 1000000) argv w) as [_ Hstatus].
  - right. left. eexists. reflexivity.
  - split; [exact Hstatus |]. eexists. reflexivity.
Defined.
